(** * dynamic_badge: the size-limited WebP encode search of [main.py]

    A shallow embedding of the part of [MainWindow] that drives ffmpeg when
    "limit size" is ticked: [_make_badge], [_on_ffmpeg_finished],
    [_on_ffmpeg_error], [_cancel_make_badge], [_handle_size_search_attempt],
    [_start_next_binary_search_attempt], [_apply_best_size_search_result],
    [_cleanup_size_search_temp_files] and the small helpers they call.

    The window object is a record that is passed from handler to handler;
    the directory that holds the output file is a finite map from paths to
    files; Qt signals are events delivered one at a time, as the single
    threaded event loop does. *)

From stdpp Require Import gmap strings list.
From Stdlib Require Import ZArith Lia.

Local Open Scope Z_scope.

(** ** Paths and files *)

(** [out_path] is [Path(output_dir) / output_name].  [_new_temp_webp_path]
    builds [.<stem>.tmp_<uuid4 hex><suffix>] next to it; the token of the
    model is the number of the [uuid4] draw, so two draws never agree. *)
Inductive Path : Type :=
| OutPath
| TmpPath (token : nat).

#[global] Instance Path_eq_dec : EqDecision Path.
Proof. solve_decision. Defined.

#[global] Instance Path_countable : Countable Path.
Proof.
  refine (inj_countable'
            (fun p => match p with OutPath => None | TmpPath n => Some n end)
            (fun o => match o with None => OutPath | Some n => TmpPath n end) _).
  intros []; reflexivity.
Defined.

(** What [stat] sees of a file, and which encode wrote it ([None]: the
    file was there before the job). *)
Record File : Type := mkFile {
  st_size : Z;
  encoded_at : option Z
}.

#[global] Instance File_eq_dec : EqDecision File.
Proof. solve_decision. Defined.

Abbreviation Disk := (gmap Path File).

(** [path.unlink(missing_ok=True)] inside [try ... except Exception: pass]:
    never raises; on the model disk the file is gone afterwards. *)
Definition unlink (p : Path) (d : Disk) : Disk := delete p d.

(** [for path in paths: path.unlink(missing_ok=True)] *)
Definition unlink_all (ps : list Path) (d : Disk) : Disk :=
  fold_left (fun acc p => unlink p acc) ps d.

(** [src.replace(dst)]: [os.replace].  [os_ok] is the answer of the
    operating system (permissions, devices); a missing source raises in any
    case.  [None] stands for the raised exception. *)
Definition path_replace (os_ok : bool) (src dst : Path) (d : Disk) : option Disk :=
  if os_ok then
    match d !! src with
    | Some f => Some (<[dst := f]> (delete src d))
    | None => None
    end
  else None.

(** [int(path.stat().st_size)]; [None] stands for the raised exception. *)
Definition stat_size (p : Path) (d : Disk) : option Z :=
  st_size <$> (d !! p).

(** ** The records of [main.py] *)

Record CropSpec : Type := mkCrop { crop_x : Z; crop_y : Z; crop_side : Z }.

Record SizeSearchState : Type := mkSearch {
  target_bytes : Z;
  quality_min : Z;
  quality_max : Z;
  crop : CropSpec;
  out_side : Z;
  fps : Z;
  final_path : Path;
  phase : string;
  low : Z;
  high : Z;
  attempt : Z;
  max_attempts : Z;
  best_quality : option Z;
  best_size_bytes : option Z;
  best_temp_path : option Path;
  temp_paths : list Path
}.

(** The notes appended to the success message. *)
Inductive Note : Type :=
| note_met_at_max        (* test_max: the first encode already fits *)
| note_unattainable (q : Z) (size : Z)  (* test_min: even the lowest quality is too big *)
| note_met_after_min     (* test_min: nothing between the two probes *)
| note_best_result       (* binary: the interval is empty *)
| note_max_attempts.     (* binary: attempt >= max_attempts *)

(** The texts handed to [_complete_job]. *)
Inductive Message : Type :=
| msg_canceled
| msg_details (text : string)      (* what ffmpeg printed *)
| msg_ffmpeg_failed
| msg_internal_state
| msg_stat_failed
| msg_unknown_phase
| msg_no_usable_output
| msg_save_failed
| msg_single_output
| msg_output_path_unknown
| msg_output (p : Path) (quality : option Z) (size : option Z) (n : Note).

(** The three dialogs of [_complete_job]. *)
Inductive Outcome : Type := Done | Failed | Canceled.

Record Report : Type := mkReport { outcome : Outcome; message : Message }.

(** The fields of [MainWindow] the job touches, the disk, and three
    history lists: the calls of [_start_ffmpeg_encode], the states with
    which [_apply_best_size_search_result] was entered, and the dialogs
    shown by [_complete_job] (newest first). *)
Record MainWindow : Type := mkWin {
  disk : Disk;
  uuid_draws : nat;
  ffmpeg_process : bool;            (* a QProcess exists and is running *)
  ffmpeg_finalized : bool;
  job_was_canceled : bool;
  pending_out_path : option Path;
  current_quality : option Z;
  final_out_path : option Path;
  size_search : option SizeSearchState;
  launches : list (Z * Path);
  commits : list (option SizeSearchState);
  reports : list Report
}.

Module Upd.

Definition with_disk (d : Disk) (w : MainWindow) : MainWindow :=
  mkWin d (uuid_draws w) (ffmpeg_process w) (ffmpeg_finalized w)
        (job_was_canceled w) (pending_out_path w) (current_quality w)
        (final_out_path w) (size_search w) (launches w) (commits w) (reports w).

Definition with_search (s : option SizeSearchState) (w : MainWindow) : MainWindow :=
  mkWin (disk w) (uuid_draws w) (ffmpeg_process w) (ffmpeg_finalized w)
        (job_was_canceled w) (pending_out_path w) (current_quality w)
        (final_out_path w) s (launches w) (commits w) (reports w).

Definition with_finalized (b : bool) (w : MainWindow) : MainWindow :=
  mkWin (disk w) (uuid_draws w) (ffmpeg_process w) b
        (job_was_canceled w) (pending_out_path w) (current_quality w)
        (final_out_path w) (size_search w) (launches w) (commits w) (reports w).

Definition with_canceled (b : bool) (w : MainWindow) : MainWindow :=
  mkWin (disk w) (uuid_draws w) (ffmpeg_process w) (ffmpeg_finalized w)
        b (pending_out_path w) (current_quality w)
        (final_out_path w) (size_search w) (launches w) (commits w) (reports w).

Definition with_final_out (p : option Path) (w : MainWindow) : MainWindow :=
  mkWin (disk w) (uuid_draws w) (ffmpeg_process w) (ffmpeg_finalized w)
        (job_was_canceled w) (pending_out_path w) (current_quality w)
        p (size_search w) (launches w) (commits w) (reports w).

Definition with_phase (ph : string) (s : SizeSearchState) : SizeSearchState :=
  mkSearch (target_bytes s) (quality_min s) (quality_max s) (crop s) (out_side s)
           (fps s) (final_path s) ph (low s) (high s) (attempt s) (max_attempts s)
           (best_quality s) (best_size_bytes s) (best_temp_path s) (temp_paths s).

Definition with_low (v : Z) (s : SizeSearchState) : SizeSearchState :=
  mkSearch (target_bytes s) (quality_min s) (quality_max s) (crop s) (out_side s)
           (fps s) (final_path s) (phase s) v (high s) (attempt s) (max_attempts s)
           (best_quality s) (best_size_bytes s) (best_temp_path s) (temp_paths s).

Definition with_high (v : Z) (s : SizeSearchState) : SizeSearchState :=
  mkSearch (target_bytes s) (quality_min s) (quality_max s) (crop s) (out_side s)
           (fps s) (final_path s) (phase s) (low s) v (attempt s) (max_attempts s)
           (best_quality s) (best_size_bytes s) (best_temp_path s) (temp_paths s).

Definition with_attempt (v : Z) (s : SizeSearchState) : SizeSearchState :=
  mkSearch (target_bytes s) (quality_min s) (quality_max s) (crop s) (out_side s)
           (fps s) (final_path s) (phase s) (low s) (high s) v (max_attempts s)
           (best_quality s) (best_size_bytes s) (best_temp_path s) (temp_paths s).

(** [state.best_quality = q; state.best_size_bytes = sz; state.best_temp_path = p] *)
Definition with_best (q sz : Z) (p : Path) (s : SizeSearchState) : SizeSearchState :=
  mkSearch (target_bytes s) (quality_min s) (quality_max s) (crop s) (out_side s)
           (fps s) (final_path s) (phase s) (low s) (high s) (attempt s) (max_attempts s)
           (Some q) (Some sz) (Some p) (temp_paths s).

Definition with_temp_paths (ps : list Path) (s : SizeSearchState) : SizeSearchState :=
  mkSearch (target_bytes s) (quality_min s) (quality_max s) (crop s) (out_side s)
           (fps s) (final_path s) (phase s) (low s) (high s) (attempt s) (max_attempts s)
           (best_quality s) (best_size_bytes s) (best_temp_path s) ps.

End Upd.
Import Upd.

(** ** The handlers *)

(** [_new_temp_webp_path]: one more [uuid4] draw. *)
Definition new_temp_webp_path (w : MainWindow) : Path * MainWindow :=
  (TmpPath (uuid_draws w),
   mkWin (disk w) (S (uuid_draws w)) (ffmpeg_process w) (ffmpeg_finalized w)
         (job_was_canceled w) (pending_out_path w) (current_quality w)
         (final_out_path w) (size_search w) (launches w) (commits w) (reports w)).

(** [_start_ffmpeg_encode]: remember the output path and the quality, clear
    the finalized flag, start the process. *)
Definition start_ffmpeg_encode (out : Path) (quality : Z) (w : MainWindow) : MainWindow :=
  mkWin (disk w) (uuid_draws w) true false
        (job_was_canceled w) (Some out) (Some quality)
        (final_out_path w) (size_search w)
        ((quality, out) :: launches w) (commits w) (reports w).

(** [_dispose_ffmpeg_process] *)
Definition dispose_ffmpeg_process (w : MainWindow) : MainWindow :=
  mkWin (disk w) (uuid_draws w) false (ffmpeg_finalized w)
        (job_was_canceled w) None None
        (final_out_path w) (size_search w) (launches w) (commits w) (reports w).

(** [_complete_job]: the dialog depends on [ok] and on [_job_was_canceled];
    then every per-job field is reset. *)
Definition complete_job (ok : bool) (m : Message) (w : MainWindow) : MainWindow :=
  let r := if ok then mkReport Done m
           else if job_was_canceled w then mkReport Canceled m
           else mkReport Failed m in
  mkWin (disk w) (uuid_draws w) false false false None None None
        (size_search w) (launches w) (commits w) (r :: reports w).

(** [_cleanup_size_search_temp_files] *)
Definition cleanup_size_search_temp_files (w : MainWindow) : MainWindow :=
  match size_search w with
  | None => w
  | Some state =>
      let w := with_disk (unlink_all (temp_paths state) (disk w)) w in
      with_search (Some (with_temp_paths [] state)) w
  end.

(** [_finalize_size_search] *)
Definition finalize_size_search (ok : bool) (m : Message) (w : MainWindow) : MainWindow :=
  let w := dispose_ffmpeg_process w in
  let w := complete_job ok m w in
  with_search None w.

(** [_abort_job] *)
Definition abort_job (m : Message) (w : MainWindow) : MainWindow :=
  let w := cleanup_size_search_temp_files w in
  let w := with_search None w in
  complete_job false m w.

(** [details or default] *)
Definition details_or (details : string) (default : Message) : Message :=
  if String.eqb details "" then default else msg_details details.

(** Python's [not x] for [x : int | None]. *)
Definition falsy (x : option Z) : bool :=
  match x with
  | None => true
  | Some v => v =? 0
  end.

(** [_apply_best_size_search_result] *)
Definition apply_best_size_search_result (note : Note) (os_ok : bool)
    (w : MainWindow) : MainWindow :=
  let w := mkWin (disk w) (uuid_draws w) (ffmpeg_process w) (ffmpeg_finalized w)
                 (job_was_canceled w) (pending_out_path w) (current_quality w)
                 (final_out_path w) (size_search w) (launches w)
                 (size_search w :: commits w) (reports w) in
  let no_result (w : MainWindow) :=
    finalize_size_search false msg_no_usable_output
      (cleanup_size_search_temp_files w) in
  match size_search w with
  | None => no_result w
  | Some state =>
      match best_temp_path state with
      | None => no_result w
      | Some best_path =>
          if falsy (best_quality state) then no_result w
          else
            let final := final_path state in
            match path_replace os_ok best_path final (disk w) with
            | None =>
                finalize_size_search false msg_save_failed
                  (cleanup_size_search_temp_files w)
            | Some d =>
                let w := with_disk d w in
                let others :=
                  filter (fun p => p <> best_path) (temp_paths state) in
                let w := with_disk (unlink_all others (disk w)) w in
                let w := cleanup_size_search_temp_files w in
                finalize_size_search true
                  (msg_output final (best_quality state)
                              (best_size_bytes state) note) w
            end
      end
  end.

(** [_start_next_binary_search_attempt] *)
Definition start_next_binary_search_attempt (w : MainWindow) : MainWindow :=
  match size_search w with
  | None => w
  | Some state =>
      let state := with_attempt (attempt state + 1) state in
      let q := (low state + high state) / 2 in
      let '(new_temp, w) := new_temp_webp_path w in
      let state := with_temp_paths (temp_paths state ++ [new_temp]) state in
      let w := with_search (Some state) w in
      start_ffmpeg_encode new_temp q w
  end.

(** [_handle_size_search_attempt] *)
Definition handle_size_search_attempt (ok : bool) (details : string)
    (os_ok : bool) (w : MainWindow) : MainWindow :=
  let state_o := size_search w in
  let temp_path_o := pending_out_path w in
  let quality_o := current_quality w in
  let w := dispose_ffmpeg_process w in
  match state_o, temp_path_o, quality_o with
  | Some state, Some temp_path, Some quality =>
      if negb ok then
        finalize_size_search false (details_or details msg_ffmpeg_failed)
          (cleanup_size_search_temp_files w)
      else
        match stat_size temp_path (disk w) with
        | None =>
            finalize_size_search false msg_stat_failed
              (cleanup_size_search_temp_files w)
        | Some size_bytes =>
            if String.eqb (phase state) "test_max" then
              if size_bytes <=? target_bytes state then
                let state := with_best quality size_bytes temp_path state in
                apply_best_size_search_result note_met_at_max os_ok
                  (with_search (Some state) w)
              else
                let w := with_disk (unlink temp_path (disk w)) w in
                let state := with_phase "test_min" state in
                let q := quality_min state in
                let '(new_temp, w) := new_temp_webp_path w in
                let state := with_temp_paths (temp_paths state ++ [new_temp]) state in
                start_ffmpeg_encode new_temp q (with_search (Some state) w)
            else if String.eqb (phase state) "test_min" then
              let state := with_best quality size_bytes temp_path state in
              if size_bytes >? target_bytes state then
                apply_best_size_search_result
                  (note_unattainable quality size_bytes) os_ok
                  (with_search (Some state) w)
              else
                let state := with_phase "binary" state in
                let state := with_low (quality_min state + 1) state in
                let state := with_high (quality_max state - 1) state in
                if low state >? high state then
                  apply_best_size_search_result note_met_after_min os_ok
                    (with_search (Some state) w)
                else
                  start_next_binary_search_attempt (with_search (Some state) w)
            else if String.eqb (phase state) "binary" then
              let better :=
                (size_bytes <=? target_bytes state) &&
                match best_quality state with
                | None => true
                | Some b => quality >? b
                end in
              let '(state, w) :=
                if better then
                  let w :=
                    match best_temp_path state with
                    | Some bp =>
                        if decide (bp <> temp_path)
                        then with_disk (unlink bp (disk w)) w
                        else w
                    | None => w
                    end in
                  let state := with_best quality size_bytes temp_path state in
                  (with_low (quality + 1) state, w)
                else
                  (with_high (quality - 1) state,
                   with_disk (unlink temp_path (disk w)) w) in
              let w := with_search (Some state) w in
              if low state >? high state then
                apply_best_size_search_result note_best_result os_ok w
              else if attempt state >=? max_attempts state then
                apply_best_size_search_result note_max_attempts os_ok w
              else
                start_next_binary_search_attempt w
            else
              finalize_size_search false msg_unknown_phase
                (cleanup_size_search_temp_files w)
        end
  | _, _, _ =>
      finalize_size_search false (details_or details msg_internal_state) w
  end.

(** [_finish_success_single]: the job without a size limit. *)
Definition finish_success_single (w : MainWindow) : MainWindow :=
  match final_out_path w, pending_out_path w with
  | None, None => abort_job msg_output_path_unknown w
  | _, _ => complete_job true msg_single_output w
  end.

(** [_on_ffmpeg_finished].  The signal of a process that is no longer
    [self._ffmpeg_process] is dropped by the [sender()] test. *)
Definition on_ffmpeg_finished (exit_ok : bool) (details : string)
    (os_ok : bool) (w : MainWindow) : MainWindow :=
  if negb (ffmpeg_process w) then w
  else if ffmpeg_finalized w then w
  else
    let w := with_finalized true w in
    match size_search w with
    | Some _ => handle_size_search_attempt exit_ok details os_ok w
    | None =>
        if exit_ok then finish_success_single w
        else abort_job (details_or details msg_ffmpeg_failed) w
    end.

(** [_on_ffmpeg_error] *)
Definition on_ffmpeg_error (details : string) (w : MainWindow) : MainWindow :=
  if negb (ffmpeg_process w) then w
  else if ffmpeg_finalized w then w
  else
    let w := with_finalized true w in
    abort_job (details_or details msg_ffmpeg_failed) w.

(** [_cancel_make_badge] *)
Definition cancel_make_badge (w : MainWindow) : MainWindow :=
  if negb (ffmpeg_process w) then w
  else
    let w := with_canceled true w in
    let pending := pending_out_path w in
    let final := final_out_path w in
    let w := with_finalized true w in
    let w := cleanup_size_search_temp_files w in
    let w := with_search None w in
    let w := dispose_ffmpeg_process w in
    let unlink_if (p : option Path) (w : MainWindow) :=
      match p with
      | None => w
      | Some path => with_disk (unlink path (disk w)) w
      end in
    let w := unlink_if final (unlink_if pending w) in
    complete_job false msg_canceled w.

(** [_make_badge], after the checks that need no job state: [exists_ok]
    is the answer to the overwrite question, [limit_size] the check box,
    [target_mb] the spin box and [quality] the slider. *)
Definition make_badge (exists_ok limit_size : bool) (target_mb quality : Z)
    (c : CropSpec) (side rate : Z) (w : MainWindow) : MainWindow :=
  let out_path := OutPath in
  if bool_decide (is_Some (disk w !! out_path)) && negb exists_ok then w
  else if ffmpeg_process w then w
  else
    let w := with_final_out (Some out_path) w in
    let w := with_search None w in
    let w := with_canceled false w in
    if limit_size then
      let target := target_mb * 1024 * 1024 in
      let qmin := 1 in
      let qmax := Z.max qmin quality in
      let state :=
        mkSearch target qmin qmax c side rate out_path "test_max" qmin qmax
                 0 12 None None None [] in
      let '(temp_path, w) := new_temp_webp_path w in
      let state := with_temp_paths (temp_paths state ++ [temp_path]) state in
      start_ffmpeg_encode temp_path qmax (with_search (Some state) w)
    else
      start_ffmpeg_encode out_path quality w.

(** ** The event loop *)

(** The window before any job, over a directory in which the output file
    exists ([Some f]) or not. *)
Definition idle_window (existing : option File) : MainWindow :=
  mkWin (match existing with Some f => {[ OutPath := f ]} | None => ∅ end)
        0 false false false None None None None [] [] [].

(** What can happen while a job is running: ffmpeg writes (or rewrites)
    its output file, the process ends, the process reports an error, the
    user presses cancel. *)
Inductive Event : Type :=
| ev_write (size : Z)
| ev_finished (exit_ok : bool) (details : string) (os_ok : bool)
| ev_error (details : string)
| ev_cancel.

(** ffmpeg is called with [-y]: it overwrites its output path. *)
Definition ffmpeg_writes (size : Z) (w : MainWindow) : MainWindow :=
  if ffmpeg_process w then
    match pending_out_path w with
    | Some p => with_disk (<[p := mkFile size (current_quality w)]> (disk w)) w
    | None => w
    end
  else w.

Definition deliver (w : MainWindow) (e : Event) : MainWindow :=
  match e with
  | ev_write size => ffmpeg_writes size w
  | ev_finished exit_ok details os_ok => on_ffmpeg_finished exit_ok details os_ok w
  | ev_error details => on_ffmpeg_error details w
  | ev_cancel => cancel_make_badge w
  end.

Definition exec (evs : list Event) (w : MainWindow) : MainWindow :=
  fold_left deliver evs w.

(** A size-limited job started on a fresh window. *)
Definition start_limited (existing : option File) (target_mb quality : Z)
    (c : CropSpec) (side rate : Z) : MainWindow :=
  make_badge true true target_mb quality c side rate (idle_window existing).

(** An encoder that always succeeds and whose output size is a function
    of the quality; [os.replace] succeeds as well. *)
Definition encode_once (size : Z -> Z) (w : MainWindow) : MainWindow :=
  match current_quality w with
  | Some q => deliver (deliver w (ev_write (size q))) (ev_finished true "" true)
  | None => w
  end.

Fixpoint run (size : Z -> Z) (n : nat) (w : MainWindow) : MainWindow :=
  match n with
  | O => w
  | S n' => run size n' (encode_once size w)
  end.

Definition qualities (w : MainWindow) : list Z := map fst (rev (launches w)).

(** ** Invariants of a size-limited job *)

(** The temp paths handed out by the first [n] draws, in order. *)
Definition tokens (n : nat) : list Path := map TmpPath (seq 0 n).

(** The qualities of the launches, newest first. *)
Definition launched (w : MainWindow) : list Z := map fst (launches w).

(** The largest number of probes a bisection makes on [n] candidates. *)
Definition halvings (n : Z) : Z := if n <=? 0 then 0 else Z.log2 n + 1.


#[global] Arguments tokens : simpl never.
#[global] Arguments halvings : simpl never.

Section Invariants.

(** [Obs q s]: an encode at quality [q] can leave a file of [s] bytes.
    [T] is the target in bytes, [QM] the quality of the first attempt. *)
Variable Obs : Z -> Z -> Prop.
Variables T QM : Z.

(** Some encode at quality [q] was seen to exceed the target. *)
Definition exceeded (q : Z) : Prop := exists s, Obs q s /\ T < s.

(** What holds between two events while ffmpeg runs an attempt at quality
    [q] that writes [TmpPath p]. *)
Inductive phase_inv (w : MainWindow) (st : SizeSearchState)
    (p : nat) (q : Z) : Prop :=
| pi_test_max :
    phase st = "test_max" -> q = QM ->
    best_temp_path st = None -> attempt st = 0 ->
    launched w = [QM] ->
    phase_inv w st p q
| pi_test_min :
    phase st = "test_min" -> q = 1 ->
    best_temp_path st = None -> attempt st = 0 ->
    launched w = [1; QM] ->
    exceeded QM ->
    phase_inv w st p q
| pi_binary (b bs : Z) (bp : nat) (rest : list Z) :
    phase st = "binary" ->
    best_quality st = Some b -> best_size_bytes st = Some bs ->
    best_temp_path st = Some (TmpPath bp) ->
    bp <> p -> (bp < uuid_draws w)%nat ->
    disk w !! TmpPath bp = Some (mkFile bs (Some b)) ->
    bs <= T -> Obs b bs -> b = low st - 1 -> exceeded (high st + 1) ->
    2 <= low st -> low st <= high st -> high st <= QM - 1 ->
    q = (low st + high st) / 2 ->
    1 <= attempt st <= 12 ->
    Z.of_nat (length (launches w)) = 2 + attempt st ->
    Z.of_nat (length (launches w)) - 1 + halvings (high st - low st + 1)
      <= 2 + halvings (QM - 2) ->
    launched w = q :: rest ->
    NoDup rest ->
    (forall x, x ∈ rest -> x < low st \/ high st < x) ->
    phase_inv w st p q.

Record alive (w : MainWindow) (st : SizeSearchState)
    (p : nat) (q : Z) : Prop := mkAlive {
  al_process : ffmpeg_process w = true;
  al_finalized : ffmpeg_finalized w = false;
  al_canceled : job_was_canceled w = false;
  al_search : size_search w = Some st;
  al_pending : pending_out_path w = Some (TmpPath p);
  al_quality : current_quality w = Some q;
  al_final_out : final_out_path w = Some OutPath;
  al_final_path : final_path st = OutPath;
  al_target : target_bytes st = T;
  al_qmin : quality_min st = 1;
  al_qmax : quality_max st = QM;
  al_ceiling : 1 <= QM;
  al_max_attempts : max_attempts st = 12;
  al_temp_paths : temp_paths st = tokens (uuid_draws w);
  al_p_lt : (p < uuid_draws w)%nat;
  al_disk : forall k, is_Some (disk w !! TmpPath k) ->
            k = p \/ best_temp_path st = Some (TmpPath k);
  al_written : forall f, disk w !! TmpPath p = Some f ->
               encoded_at f = Some q /\ Obs q (st_size f);
  al_reports : reports w = [];
  al_commits : commits w = [];
  al_nodup : QM <> 1 -> NoDup (launched w);
  al_count : (length (launches w) <= 14)%nat;
  al_count_log : Z.of_nat (length (launches w)) <= 2 + halvings (QM - 2);
  al_phase : phase_inv w st p q
}.

(** What a commit was entered with. *)
Definition commit_ok (c : option SizeSearchState) : Prop :=
  exists st b bp,
    c = Some st /\ best_quality st = Some b /\
    quality_min st = 1 /\ quality_min st <= b /\
    best_temp_path st = Some bp.

(** What each note says about the committed quality [b] and size [s]. *)
Definition note_ok (n : Note) (b s : Z) : Prop :=
  match n with
  | note_met_at_max => b = QM /\ s <= T
  | note_unattainable q' s' => b = 1 /\ T < s /\ q' = b /\ s' = s
  | note_met_after_min => b = 1 /\ s <= T /\ QM <= 2 /\ exceeded QM
  | note_best_result => s <= T /\ exceeded (b + 1)
  | note_max_attempts => s <= T /\ 12 < halvings (QM - 2)
  end.

(** How many encodes had been launched when the note was written. *)
Definition note_count (n : Note) (k : nat) : Prop :=
  match n with
  | note_met_at_max => k = 1%nat
  | note_unattainable _ _ | note_met_after_min => k = 2%nat
  | note_best_result | note_max_attempts => (3 <= k)%nat
  end.

(** What the one dialog of a finished job says, against the disk and the
    number [k] of launches. *)
Record report_ok (d : Disk) (k : nat) (r : Report) : Prop := mkReportOk {
  ro_usable : message r <> msg_no_usable_output;
  ro_save : message r = msg_save_failed -> outcome r = Failed;
  ro_done : outcome r = Done ->
            exists b s n,
              message r = msg_output OutPath (Some b) (Some s) n /\
              1 <= b <= QM /\ Obs b s /\ note_ok n b s /\ note_count n k /\
              d !! OutPath = Some (mkFile s (Some b));
  ro_canceled : outcome r = Canceled ->
                message r = msg_canceled /\ d !! OutPath = None
}.

(** What holds once [_complete_job] has run. *)
Record finished (w : MainWindow) : Prop := mkFinished {
  fi_process : ffmpeg_process w = false;
  fi_search : size_search w = None;
  fi_pending : pending_out_path w = None;
  fi_disk : forall k, disk w !! TmpPath k = None;
  fi_reports : exists r, reports w = [r] /\
                         report_ok (disk w) (length (launches w)) r;
  fi_commits : forall c, c ∈ commits w -> commit_ok c;
  fi_nodup : QM <> 1 -> NoDup (launched w);
  fi_count : (length (launches w) <= 14)%nat;
  fi_count_log : Z.of_nat (length (launches w)) <= 2 + halvings (QM - 2)
}.

Definition job_inv (w : MainWindow) : Prop :=
  (exists st p q, alive w st p q) \/ finished w.

(** The state with which [_apply_best_size_search_result] is entered:
    the attempt has been taken in, the process is disposed of, a best
    result is recorded and its file is on disk. *)
Record settled (w : MainWindow) (st : SizeSearchState)
    (b bs : Z) (bp : nat) : Prop := mkSettled {
  se_process : ffmpeg_process w = false;
  se_canceled : job_was_canceled w = false;
  se_search : size_search w = Some st;
  se_final_path : final_path st = OutPath;
  se_qmin : quality_min st = 1;
  se_temp_paths : temp_paths st = tokens (uuid_draws w);
  se_disk : forall k, is_Some (disk w !! TmpPath k) -> (k < uuid_draws w)%nat;
  se_best_quality : best_quality st = Some b;
  se_best_size : best_size_bytes st = Some bs;
  se_best_path : best_temp_path st = Some (TmpPath bp);
  se_best_file : disk w !! TmpPath bp = Some (mkFile bs (Some b));
  se_range : 1 <= b <= QM;
  se_obs : Obs b bs;
  se_reports : reports w = [];
  se_commits : commits w = [];
  se_nodup : QM <> 1 -> NoDup (launched w);
  se_count : (length (launches w) <= 14)%nat;
  se_count_log : Z.of_nat (length (launches w)) <= 2 + halvings (QM - 2)
}.

(** A state from which cleaning up and reporting ends the job in order. *)
Record tidy (w : MainWindow) (st : SizeSearchState) : Prop := mkTidy {
  ti_canceled : job_was_canceled w = false;
  ti_search : size_search w = Some st;
  ti_temp_paths : temp_paths st = tokens (uuid_draws w);
  ti_disk : forall k, is_Some (disk w !! TmpPath k) -> (k < uuid_draws w)%nat;
  ti_reports : reports w = [];
  ti_commits : forall c, c ∈ commits w -> commit_ok c;
  ti_nodup : QM <> 1 -> NoDup (launched w);
  ti_count : (length (launches w) <= 14)%nat;
  ti_count_log : Z.of_nat (length (launches w)) <= 2 + halvings (QM - 2)
}.

(** The state in which the binary search decides what to do next: the
    last attempt has been taken in, one best file is on disk, and every
    quality tried so far lies outside [low .. high]. *)
Record ready (w : MainWindow) (st : SizeSearchState)
    (b bs : Z) (bp : nat) : Prop := mkReady {
  re_process : ffmpeg_process w = false;
  re_canceled : job_was_canceled w = false;
  re_search : size_search w = Some st;
  re_final_out : final_out_path w = Some OutPath;
  re_final_path : final_path st = OutPath;
  re_target : target_bytes st = T;
  re_qmin : quality_min st = 1;
  re_qmax : quality_max st = QM;
  re_max_attempts : max_attempts st = 12;
  re_temp_paths : temp_paths st = tokens (uuid_draws w);
  re_phase : phase st = "binary";
  re_best_quality : best_quality st = Some b;
  re_best_size : best_size_bytes st = Some bs;
  re_best_path : best_temp_path st = Some (TmpPath bp);
  re_best_lt : (bp < uuid_draws w)%nat;
  re_best_file : disk w !! TmpPath bp = Some (mkFile bs (Some b));
  re_disk : forall k, is_Some (disk w !! TmpPath k) -> k = bp;
  re_best_ok : 1 <= b /\ bs <= T /\ Obs b bs /\ b = low st - 1;
  re_exceeded : exceeded (high st + 1);
  re_bounds : 2 <= low st /\ high st <= QM - 1;
  re_attempt : 0 <= attempt st <= 12;
  re_count : Z.of_nat (length (launches w)) = 2 + attempt st;
  re_count_log : Z.of_nat (length (launches w)) + halvings (high st - low st + 1)
                 <= 2 + halvings (QM - 2);
  re_nodup : QM <> 1 -> NoDup (launched w);
  re_outside : forall x, x ∈ launched w -> x < low st \/ high st < x;
  re_reports : reports w = [];
  re_commits : commits w = []
}.

(** How one handled event leaves the job, seen from the world [w] before
    it: a further attempt is in flight, or the job is over.  [commit] says
    whether the job ended in [os.replace] and how that went. *)
Definition continues (w w' : MainWindow) : Prop :=
  exists st p q,
    alive w' st p q /\ launches w' = (q, TmpPath p) :: launches w.

Definition ends (commit : option bool) (w w' : MainWindow) : Prop :=
  finished w' /\ launches w' = launches w /\
  match commit with
  | Some true => exists m, reports w' = [mkReport Done m]
  | Some false => reports w' = [mkReport Failed msg_save_failed]
  | None => True
  end.

(** The files ffmpeg writes during the events [evs] have sizes that
    [Obs] allows for the quality of the attempt in flight. *)
Definition honest (w : MainWindow) (e : Event) : Prop :=
  match e with
  | ev_write size => forall q, current_quality w = Some q -> Obs q size
  | _ => True
  end.

Fixpoint honest_trace (w : MainWindow) (evs : list Event) : Prop :=
  match evs with
  | [] => True
  | e :: evs' => honest w e /\ honest_trace (deliver w e) evs'
  end.

End Invariants.

(** No assumption on the encoder: any size at any quality. *)
Definition any_size : Z -> Z -> Prop := fun _ _ => True.

(** The encoder of [run]: the size is a function of the quality. *)
Definition sized (size : Z -> Z) : Z -> Z -> Prop := fun q s => s = size q.

(** What [_make_badge] makes of the spin box and the slider. *)
Definition target_of (target_mb : Z) : Z := target_mb * 1024 * 1024.
Definition ceiling_of (quality : Z) : Z := Z.max 1 quality.

(** ** The job without a size limit *)

(** [_make_badge] with the check box off, on a fresh window: one encode
    at the slider's quality, written to the final path itself. *)
Definition start_plain (existing : option File) (quality : Z)
    (c : CropSpec) (side rate : Z) : MainWindow :=
  make_badge true false 0 quality c side rate (idle_window existing).

(** What holds at every moment of such a job. *)
Record plain_job (quality : Z) (w : MainWindow) : Prop := mkPlain {
  pj_search : size_search w = None;
  pj_launches : launches w = [(quality, OutPath)];
  pj_draws : uuid_draws w = 0%nat;
  pj_no_temp : forall token, disk w !! TmpPath token = None;
  pj_commits : commits w = [];
  pj_state :
    (ffmpeg_process w = true /\ ffmpeg_finalized w = false /\
     job_was_canceled w = false /\
     pending_out_path w = Some OutPath /\ final_out_path w = Some OutPath /\
     current_quality w = Some quality /\ reports w = []) \/
    (ffmpeg_process w = false /\ exists r, reports w = [r])
}.

(** ** The crop rectangle *)

(** [_current_crop].  [item] is the crop item's side and position after
    [int(round(...))], [video_size] is [self._video_size]; either can be
    missing. *)
Definition current_crop (item : option (Z * Z * Z)) (video_size : option (Z * Z))
    : option CropSpec :=
  match item, video_size with
  | Some (side, x, y), Some (width, height) =>
      let x := Z.max 0 (Z.min x (width - side)) in
      let y := Z.max 0 (Z.min y (height - side)) in
      let side := Z.max 1 (Z.min (Z.min side width) height) in
      Some (mkCrop x y side)
  | _, _ => None
  end.

(** ** Looking for ffmpeg and ffprobe *)

(** A file system path as its components, root first: [dir / name] is
    [dir ++ [name]] and [dir.parent] is [removelast dir].  The tool names
    are single components. *)
Abbreviation FsPath := (list string).

(** What [find_ffmpeg_tool] returns: [str(path)] of a file it has seen,
    or the string [shutil.which] gave. *)
Inductive Found : Type :=
| found_file (p : FsPath)
| found_on_path (s : string).

Section FindTool.

(** [sys.platform.startswith("win")], the directory of the script, the
    directory of the interpreter, [sys._MEIPASS] when set and not empty,
    [Path.is_file] and [shutil.which]. *)
Variable win : bool.
Variables script_dir exe_dir : FsPath.
Variable meipass : option FsPath.
Variable is_file : FsPath -> bool.
Variable which : string -> option string.

Definition suffixes : list string :=
  if win then [".exe"; ""] else [""; ".exe"].

Definition candidates (tool_name : string) : list FsPath :=
  map (fun suffix => script_dir ++ ["ffmpeg_bin"; tool_name +:+ suffix]) suffixes ++
  map (fun suffix => script_dir ++ [tool_name +:+ suffix]) suffixes ++
  concat (map (fun suffix =>
            [exe_dir ++ ["ffmpeg_bin"; tool_name +:+ suffix];
             exe_dir ++ [tool_name +:+ suffix];
             removelast exe_dir ++ ["Resources"; "ffmpeg_bin"; tool_name +:+ suffix];
             removelast exe_dir ++ ["Resources"; tool_name +:+ suffix];
             removelast exe_dir ++ ["Frameworks"; "ffmpeg_bin"; tool_name +:+ suffix];
             removelast exe_dir ++ ["Frameworks"; tool_name +:+ suffix]])
          suffixes) ++
  match meipass with
  | Some base =>
      concat (map (fun suffix =>
                [base ++ ["ffmpeg_bin"; tool_name +:+ suffix];
                 base ++ [tool_name +:+ suffix]])
              suffixes)
  | None => []
  end.

(** [found = shutil.which(candidate); if found: return found] *)
Definition usable (found : option string) : option string :=
  match found with
  | Some s => if String.eqb s "" then None else Some s
  | None => None
  end.

Definition on_search_path (tool_name : string) : option string :=
  match usable (which tool_name) with
  | Some s => Some s
  | None => usable (which (tool_name +:+ ".exe"))
  end.

Definition well_known (tool_name : string) : list FsPath :=
  concat (map (fun base => map (fun suffix => base ++ [tool_name +:+ suffix]) suffixes)
              [["opt"; "homebrew"; "bin"]; ["usr"; "local"; "bin"]]).

Definition find_ffmpeg_tool (tool_name : string) : option Found :=
  match List.find is_file (candidates tool_name) with
  | Some path => Some (found_file path)
  | None =>
      match on_search_path tool_name with
      | Some found => Some (found_on_path found)
      | None =>
          match List.find is_file (well_known tool_name) with
          | Some path => Some (found_file path)
          | None => None
          end
      end
  end.

End FindTool.

(** ** Arithmetic of the bisection *)

Lemma mid_bounds (lo hi : Z) : lo <= hi -> lo <= (lo + hi) / 2 <= hi.
Proof. intros H. Z.div_mod_to_equations. lia. Qed.

Lemma halvings_nonneg (n : Z) : 0 <= halvings n.
Proof.
  unfold halvings. destruct (Z.leb_spec n 0); [lia|].
  pose proof (Z.log2_nonneg n). lia.
Qed.

Lemma halvings_pos (n : Z) : 1 <= n -> 1 <= halvings n.
Proof.
  intros Hn. unfold halvings. destruct (Z.leb_spec n 0); [lia|].
  pose proof (Z.log2_nonneg n). lia.
Qed.

Lemma halvings_mono (m n : Z) : m <= n -> halvings m <= halvings n.
Proof.
  intros H. unfold halvings.
  destruct (Z.leb_spec m 0), (Z.leb_spec n 0); try lia.
  - pose proof (Z.log2_nonneg n). lia.
  - pose proof (Z.log2_le_mono m n H). lia.
Qed.

Lemma halvings_half (m n : Z) :
  1 <= n -> m <= n / 2 -> halvings m + 1 <= halvings n.
Proof.
  intros Hn Hm. pose proof (halvings_mono _ _ Hm) as Hmono.
  assert (halvings (n / 2) + 1 = halvings n); [|lia].
  unfold halvings.
  destruct (Z.leb_spec n 0); [lia|].
  destruct (Z.leb_spec (n / 2) 0) as [Hz|Hp].
  - assert (n = 1) by (Z.div_mod_to_equations; lia). by subst.
  - change 2 with (2 ^ 1). rewrite <- Z.shiftr_div_pow2 by lia.
    rewrite Z.log2_shiftr by lia.
    assert (1 <= Z.log2 n); [|lia].
    apply Z.log2_le_pow2; [lia|]. Z.div_mod_to_equations; lia.
Qed.

Lemma halvings_log2_up (n : Z) : halvings (n - 1) = Z.log2_up n.
Proof.
  unfold halvings. destruct (Z.leb_spec (n - 1) 0).
  - symmetry. apply Z.log2_up_eqn0. lia.
  - rewrite Z.log2_up_eqn by lia. replace (Z.pred n) with (n - 1) by lia. lia.
Qed.

(** After a probe at the middle of [lo .. hi], either half is at most
    half as long. *)
Lemma upper_half (lo hi : Z) :
  lo <= hi ->
  halvings (hi - ((lo + hi) / 2 + 1) + 1) + 1 <= halvings (hi - lo + 1).
Proof.
  intros H. apply halvings_half; [lia|]. Z.div_mod_to_equations. lia.
Qed.

Lemma lower_half (lo hi : Z) :
  lo <= hi ->
  halvings ((lo + hi) / 2 - 1 - lo + 1) + 1 <= halvings (hi - lo + 1).
Proof.
  intros H. apply halvings_half; [lia|]. Z.div_mod_to_equations. lia.
Qed.

(** ** Lemmas on the disk *)

Lemma unlink_all_cons (a : Path) (ps : list Path) (d : Disk) :
  unlink_all (a :: ps) d = unlink_all ps (unlink a d).
Proof. reflexivity. Qed.

Lemma lookup_unlink_all_notin (ps : list Path) (d : Disk) (x : Path) :
  x ∉ ps -> unlink_all ps d !! x = d !! x.
Proof.
  revert d. induction ps as [|a ps IH]; intros d Hx; [done|].
  apply not_elem_of_cons in Hx as [Hne Hx]. rewrite unlink_all_cons.
  rewrite IH by done. unfold unlink. by rewrite lookup_delete_ne.
Qed.

Lemma lookup_unlink_all_None (ps : list Path) (d : Disk) (x : Path) :
  d !! x = None -> unlink_all ps d !! x = None.
Proof.
  revert d. induction ps as [|a ps IH]; intros d Hd; [done|].
  rewrite unlink_all_cons. apply IH. unfold unlink.
  destruct (decide (a = x)) as [->|Hne].
  - apply lookup_delete_eq.
  - by rewrite lookup_delete_ne.
Qed.

Lemma lookup_unlink_all_in (ps : list Path) (d : Disk) (x : Path) :
  x ∈ ps -> unlink_all ps d !! x = None.
Proof.
  revert d. induction ps as [|a ps IH]; intros d Hin.
  - by apply not_elem_of_nil in Hin.
  - rewrite unlink_all_cons.
    apply elem_of_cons in Hin as [->|Hin]; [|by apply IH].
    apply lookup_unlink_all_None. apply lookup_delete_eq.
Qed.

Lemma elem_of_tokens (n k : nat) : TmpPath k ∈ tokens n <-> (k < n)%nat.
Proof.
  unfold tokens. rewrite list_elem_of_fmap. split.
  - intros (i & [= ->] & Hi). apply elem_of_seq in Hi. lia.
  - intros Hk. exists k. split; [done|]. apply elem_of_seq. lia.
Qed.

Lemma OutPath_not_token (n : nat) : OutPath ∉ tokens n.
Proof. unfold tokens. rewrite list_elem_of_fmap. by intros (i & ? & _). Qed.

Lemma tokens_S (n : nat) : tokens n ++ [TmpPath n] = tokens (S n).
Proof. unfold tokens. by rewrite seq_S, map_app. Qed.

Lemma tokens_cover (n : nat) (d : Disk) (k : nat) :
  (forall j, is_Some (d !! TmpPath j) -> (j < n)%nat) ->
  unlink_all (tokens n) d !! TmpPath k = None.
Proof.
  intros Hd. destruct (decide (k < n)%nat) as [Hk|Hk].
  - apply lookup_unlink_all_in. by apply elem_of_tokens.
  - apply lookup_unlink_all_None.
    destruct (d !! TmpPath k) eqn:E; [|done].
    exfalso. apply Hk, Hd. rewrite E. by eexists.
Qed.

Lemma fresh_absent (d : Disk) (n : nat) :
  (forall k, is_Some (d !! TmpPath k) -> (k < n)%nat) -> d !! TmpPath n = None.
Proof.
  intros Hd. destruct (d !! TmpPath n) eqn:E; [|done].
  assert (n < n)%nat; [|lia]. apply Hd. rewrite E. by eexists.
Qed.

Lemma idle_no_temp (existing : option File) (k : nat) :
  disk (idle_window existing) !! TmpPath k = None.
Proof. destruct existing; cbn; [by rewrite lookup_singleton_ne|apply lookup_empty]. Qed.

Lemma details_or_usable (details : string) (m : Message) :
  m <> msg_no_usable_output -> details_or details m <> msg_no_usable_output.
Proof. intros Hm. unfold details_or. by destruct (String.eqb details ""). Qed.

#[global] Arguments unlink_all : simpl never.

(** ** The handlers keep the invariants *)

Section Preservation.

Variable Obs : Z -> Z -> Prop.
Variables T QM : Z.

Lemma failed_report_ok (d : Disk) (k : nat) (m : Message) :
  m <> msg_no_usable_output -> report_ok Obs T QM d k (mkReport Failed m).
Proof. intros Hm. split; cbn; try done. Qed.

Lemma finalize_ends (w0 w : MainWindow) (st : SizeSearchState) (m : Message) :
  tidy QM w st -> m <> msg_no_usable_output ->
  launches w = launches w0 ->
  ends Obs T QM None w0
    (finalize_size_search false m (cleanup_size_search_temp_files w)).
Proof.
  intros [Hc Hs Ht Hd Hr Hco Hn Hl Hlog] Hm Hw0.
  unfold cleanup_size_search_temp_files. rewrite Hs.
  destruct w; cbn in *; subst.
  split; [|by split]. split; cbn; try done.
  - intros k. rewrite Ht. by apply tokens_cover.
  - eexists. split; [done|]. by apply failed_report_ok.
Qed.

Lemma abort_finished (w : MainWindow) (st : SizeSearchState) (m : Message) :
  tidy QM w st -> m <> msg_no_usable_output ->
  finished Obs T QM (abort_job m w).
Proof.
  intros [Hc Hs Ht Hd Hr Hco Hn Hl Hlog] Hm.
  unfold abort_job, cleanup_size_search_temp_files. rewrite Hs.
  destruct w; cbn in *; subst.
  split; cbn; try done.
  - intros k. rewrite Ht. by apply tokens_cover.
  - eexists. split; [done|]. by apply failed_report_ok.
Qed.

Lemma alive_tidy (w : MainWindow) (st : SizeSearchState) (p : nat) (q : Z) :
  alive Obs T QM w st p q -> tidy QM w st.
Proof.
  intros H. destruct H. split; try done.
  - intros k Hk. destruct (al_disk0 k Hk) as [->|Hb]; [done|].
    destruct al_phase0; congruence.
  - rewrite al_commits0. intros c Hc. by apply not_elem_of_nil in Hc.
Qed.

Lemma finished_stable (w : MainWindow) (e : Event) :
  finished Obs T QM w -> deliver w e = w.
Proof.
  intros H. destruct H as [Hp _ _ _ _ _ _ _ _].
  destruct e; cbn;
    unfold ffmpeg_writes, on_ffmpeg_finished, on_ffmpeg_error, cancel_make_badge;
    by rewrite Hp.
Qed.

Lemma cancel_finished (w : MainWindow) (st : SizeSearchState) (p : nat) (q : Z) :
  alive Obs T QM w st p q -> finished Obs T QM (cancel_make_badge w).
Proof.
  intros Ha. pose proof (alive_tidy _ _ _ _ Ha) as Ht.
  destruct Ha. destruct Ht as [_ _ _ Hd _ _ _ _ _].
  unfold cancel_make_badge. rewrite al_process0. cbn.
  unfold cleanup_size_search_temp_files. cbn. rewrite al_search0.
  destruct w; cbn in *; subst. cbn.
  split; cbn; try done.
  - intros k. unfold unlink.
    rewrite lookup_delete_ne by done.
    destruct (decide (k = p)) as [->|Hne]; [apply lookup_delete_eq|].
    rewrite lookup_delete_ne by congruence.
    rewrite al_temp_paths0. by apply tokens_cover.
  - eexists. split; [done|]. split; cbn; try done.
    intros _. split; [done|]. unfold unlink. apply lookup_delete_eq.
  - intros c Hc. by apply not_elem_of_nil in Hc.
Qed.

Lemma note_ok_fits (n : Note) (b s : Z) :
  note_ok Obs T QM n b s -> s <= T \/ b = 1.
Proof. destruct n; cbn; intuition. Qed.

Lemma commit_ends (w0 w : MainWindow) (st : SizeSearchState)
    (b bs : Z) (bp : nat) (note : Note) (os_ok : bool) :
  settled Obs QM w st b bs bp -> note_ok Obs T QM note b bs ->
  note_count note (length (launches w)) ->
  launches w = launches w0 ->
  ends Obs T QM (Some os_ok) w0 (apply_best_size_search_result note os_ok w).
Proof.
  intros H Hnote Hcnt Hw0. destruct H.
  assert (Hc : commit_ok (Some st)).
  { exists st, b, (TmpPath bp). rewrite se_qmin0. by intuition. }
  unfold apply_best_size_search_result. cbn. rewrite se_search0.
  rewrite se_best_path0, se_best_quality0. cbn.
  destruct (Z.eqb_spec b 0) as [?|_]; [lia|].
  unfold path_replace. destruct os_ok.
  - rewrite se_best_file0.
    unfold cleanup_size_search_temp_files. cbn.
    destruct w; cbn in *; subst. cbn.
    rewrite se_temp_paths0, se_final_path0, se_best_size0.
    split; [|split; [done|by eexists]].
    split; cbn; try done.
    + intros k. apply tokens_cover. intros j Hj.
      destruct (decide (TmpPath j ∈
        filter (fun p => p <> TmpPath bp) (tokens uuid_draws0))) as [Hin|Hnin].
      * apply list_elem_of_filter in Hin as [_ Hin]. by apply elem_of_tokens in Hin.
      * rewrite lookup_unlink_all_notin in Hj by done.
        rewrite lookup_insert_ne in Hj by done.
        destruct (decide (j = bp)) as [->|Hne].
        { rewrite lookup_delete_eq in Hj. by destruct Hj. }
        rewrite lookup_delete_ne in Hj by congruence. by apply se_disk0.
    + eexists. split; [done|]. split; cbn; try done.
      intros _. exists b, bs, note. split; [done|].
      do 4 (split; [done|]).
      rewrite lookup_unlink_all_notin by apply OutPath_not_token.
      rewrite lookup_unlink_all_notin.
      * apply lookup_insert_eq.
      * intros Hin. apply list_elem_of_filter in Hin as [_ Hin].
        by apply OutPath_not_token in Hin.
    + intros c Hin. apply list_elem_of_singleton in Hin. by subst.
  - unfold cleanup_size_search_temp_files. cbn.
    destruct w; cbn in *; subst. cbn.
    split; [|by split].
    split; cbn; try done.
    + intros k. rewrite se_temp_paths0. by apply tokens_cover.
    + eexists. split; [done|]. by apply failed_report_ok.
    + intros c Hin. apply list_elem_of_singleton in Hin. by subst.
Qed.

Lemma ready_settled (w : MainWindow) (st : SizeSearchState)
    (b bs : Z) (bp : nat) :
  ready Obs T QM w st b bs bp -> low st <= high st + 1 ->
  settled Obs QM w st b bs bp.
Proof.
  intros H Hlh. destruct H.
  pose proof (halvings_nonneg (high st - low st + 1)).
  split; try done; try lia.
  - intros k Hk. by rewrite (re_disk0 k Hk).
  - tauto.
Qed.

Lemma next_continues (w0 w : MainWindow) (st : SizeSearchState)
    (b bs : Z) (bp : nat) :
  ready Obs T QM w st b bs bp ->
  low st <= high st -> attempt st < 12 ->
  launches w = launches w0 ->
  continues Obs T QM w0 (start_next_binary_search_attempt w).
Proof.
  intros H Hlh Hatt Hw0. destruct H.
  pose proof (mid_bounds _ _ Hlh) as Hmid.
  pose proof (halvings_pos (high st - low st + 1)) as Hpos.
  unfold start_next_binary_search_attempt. rewrite re_search0. cbn.
  do 3 eexists. split; [|cbn; by rewrite Hw0].
  split; try done; cbn; try done; try lia.
  - rewrite re_temp_paths0. apply tokens_S.
  - intros k Hk. right. by rewrite (re_disk0 k Hk).
  - intros f Hf. rewrite fresh_absent in Hf; [done|].
    intros k Hk. by rewrite (re_disk0 k Hk).
  - intros _. apply NoDup_cons. split; [|apply re_nodup0; lia].
    intros Hin. apply re_outside0 in Hin. lia.
  - eapply pi_binary; cbn; eauto; try lia; try tauto.
    apply re_nodup0. lia.
Qed.

Lemma write_alive (w : MainWindow) (st : SizeSearchState)
    (p : nat) (q size : Z) :
  alive Obs T QM w st p q -> Obs q size ->
  alive Obs T QM (ffmpeg_writes size w) st p q.
Proof.
  intros H Hobs. destruct H.
  unfold ffmpeg_writes. rewrite al_process0, al_pending0, al_quality0.
  split; cbn; try done.
  - intros k Hk. destruct (decide (k = p)) as [->|Hne]; [by left|].
    rewrite lookup_insert_ne in Hk by congruence. by apply al_disk0.
  - intros f. rewrite lookup_insert_eq. by intros [= <-].
  - destruct al_phase0.
    + by apply pi_test_max.
    + by apply pi_test_min.
    + eapply pi_binary; eauto. cbn. by rewrite lookup_insert_ne by congruence.
Qed.

Lemma error_finished (w : MainWindow) (st : SizeSearchState)
    (p : nat) (q : Z) (details : string) :
  alive Obs T QM w st p q -> finished Obs T QM (on_ffmpeg_error details w).
Proof.
  intros Ha. pose proof (alive_tidy _ _ _ _ Ha) as Ht.
  destruct Ha. unfold on_ffmpeg_error. rewrite al_process0, al_finalized0. cbn.
  eapply abort_finished; [|by apply details_or_usable].
  by destruct Ht.
Qed.

#[local] Arguments apply_best_size_search_result : simpl never.
#[local] Arguments start_next_binary_search_attempt : simpl never.

(** The process ends: the attempt is taken in and the next one starts, or
    the job is over; it is over with a success dialog when the process
    exited normally, its file can be read and [os.replace] works. *)
Lemma finished_step (w : MainWindow) (st : SizeSearchState)
    (p : nat) (q : Z) (exit_ok : bool) (details : string) (os_ok : bool) :
  alive Obs T QM w st p q ->
  let w' := on_ffmpeg_finished exit_ok details os_ok w in
  continues Obs T QM w w' \/
  ends Obs T QM
    (if exit_ok && bool_decide (is_Some (disk w !! TmpPath p))
     then Some os_ok else None) w w'.
Proof.
  intros Ha. pose proof (alive_tidy _ _ _ _ Ha) as Ht.
  destruct Ha. destruct Ht as [_ _ _ Hlt _ Hco _ _ _].
  unfold on_ffmpeg_finished. rewrite al_process0, al_finalized0. cbn.
  rewrite al_search0.
  unfold handle_size_search_attempt. cbn.
  rewrite al_search0, al_pending0, al_quality0.
  destruct exit_ok; cbn.
  2:{ right. eapply finalize_ends; [|by apply details_or_usable|done].
      split; cbn; eauto. }
  unfold stat_size.
  destruct (disk w !! TmpPath p) as [f|] eqn:Ef; cbn.
  2:{ right. eapply finalize_ends; [|done|done].
      split; cbn; eauto. }
  destruct (al_written0 f eq_refl) as [Hf Hobs].
  destruct f as [sz enc]. cbn in Hf, Hobs. subst enc. cbn.
  destruct al_phase0 as [Hph Hq Hbest Hatt Hl | Hph Hq Hbest Hatt Hl Hex
    | b bs bp rest Hph Hbq Hbs Hbp Hne Hbplt Hbf HbsT Hbobs Hblow Hex Hlo Hlh
        Hhi Hq Hatt Hcount Hlog Hl Hnd Hout ].
  - (* test_max *)
    rewrite Hph. cbn. rewrite al_target0.
    assert (Hlen : length (launches w) = 1%nat).
    { unfold launched in Hl. apply (f_equal length) in Hl.
      by rewrite length_map in Hl. }
    pose proof (halvings_nonneg (QM - 2)) as Hh.
    destruct (Z.leb_spec sz T) as [Hle|Hgt].
    + right. eapply commit_ends with (b := q) (bs := sz) (bp := p); [|by subst|cbn; by rewrite Hlen|done].
      split; cbn; eauto. lia.
    + left. do 3 eexists. rewrite al_qmin0.
      unfold launched in *.
      split; [|reflexivity].
      split; try done; cbn; try done; try lia.
      * rewrite al_temp_paths0. apply tokens_S.
      * intros k Hk. exfalso. unfold unlink in Hk.
        destruct (decide (k = p)) as [->|Hkp].
        { rewrite lookup_delete_eq in Hk. by destruct Hk. }
        rewrite lookup_delete_ne in Hk by congruence.
        destruct (al_disk0 k Hk); congruence.
      * intros f Hf. unfold unlink in Hf.
        rewrite lookup_delete_ne in Hf by (intros [= ?]; lia).
        rewrite fresh_absent in Hf; done.
      * intros HQM. rewrite Hl. apply NoDup_cons. split.
        { rewrite list_elem_of_singleton. congruence. }
        apply NoDup_singleton.
      * apply pi_test_min; cbn; try done; [by rewrite Hl|].
        exists sz. split; [by subst|done].
  - (* test_min *)
    rewrite Hph. cbn. rewrite al_target0, al_qmin0, al_qmax0.
    assert (Hlen : length (launches w) = 2%nat).
    { unfold launched in Hl. apply (f_equal length) in Hl.
      by rewrite length_map in Hl. }
    pose proof (halvings_nonneg (QM - 2)) as Hh.
    assert (Hse : settled Obs QM
        (with_search (Some (with_high (QM - 1) (with_low (1 + 1)
              (with_phase "binary" (with_best q sz (TmpPath p) st)))))
           (dispose_ffmpeg_process (with_finalized true w)))
        (with_high (QM - 1) (with_low (1 + 1) (with_phase "binary"
              (with_best q sz (TmpPath p) st)))) q sz p).
    { split; cbn; eauto; lia. }
    destruct (Z.gtb_spec sz T) as [Hgt|Hle].
    + right. eapply commit_ends with (b := q) (bs := sz) (bp := p); [|by subst|cbn; by rewrite Hlen|done].
      split; cbn; eauto; lia.
    + destruct (Z.gtb_spec (1 + 1) (QM - 1)) as [Hempty|Hsome].
      * right. eapply commit_ends; [exact Hse| |cbn; by rewrite Hlen|done].
        cbn. repeat split; try done; lia.
      * assert (Hr : ready Obs T QM
            (with_search (Some (with_high (QM - 1) (with_low (1 + 1)
                  (with_phase "binary" (with_best q sz (TmpPath p) st)))))
               (dispose_ffmpeg_process (with_finalized true w)))
            (with_high (QM - 1) (with_low (1 + 1) (with_phase "binary"
                  (with_best q sz (TmpPath p) st)))) q sz p);
          [|left; eapply next_continues; [exact Hr|cbn; lia|cbn; lia|done]].
        split; cbn; try done; try lia.
        -- intros k Hk. destruct (al_disk0 k Hk); congruence.
        -- repeat split; try done; lia.
        -- by replace (QM - 1 + 1) with QM by lia.
        -- rewrite Hlen. replace (QM - 1 - (1 + 1) + 1) with (QM - 2) by lia. lia.
        -- unfold launched in *. rewrite Hl. intros x Hx.
           apply elem_of_cons in Hx as [->|Hx]; [lia|].
           apply list_elem_of_singleton in Hx. lia.
  - (* binary *)
    rewrite Hph. cbn. rewrite al_target0, Hbq, Hbp.
    pose proof (mid_bounds _ _ Hlh) as Hmid.
    pose proof (upper_half _ _ Hlh) as Hup.
    pose proof (lower_half _ _ Hlh) as Hdown.
    rewrite <- Hq in Hmid, Hup, Hdown.
    unfold launched in *.
    assert (Hall : NoDup (map fst (launches w))) by (apply al_nodup0; lia).
    destruct (Z.gtb_spec q b) as [_|Hqb]; [|lia]. rewrite andb_true_r.
    destruct (Z.leb_spec sz T) as [Hle|Hgt]; cbn.
    + destruct (decide (TmpPath bp <> TmpPath p)) as [_|Heq];
        [|exfalso; apply Heq; congruence].
      assert (Hr : ready Obs T QM
        (with_search (Some (with_low (q + 1) (with_best q sz (TmpPath p) st)))
           (with_disk (unlink (TmpPath bp) (disk w))
              (dispose_ffmpeg_process (with_finalized true w))))
        (with_low (q + 1) (with_best q sz (TmpPath p) st)) q sz p).
      { split; cbn; try done; try lia.
        - unfold unlink. by rewrite lookup_delete_ne by congruence.
        - intros k Hk. unfold unlink in Hk.
          destruct (decide (k = bp)) as [->|Hkp].
          { rewrite lookup_delete_eq in Hk. by destruct Hk. }
          rewrite lookup_delete_ne in Hk by congruence.
          destruct (al_disk0 k Hk); congruence.
        - repeat split; try done; lia.
        - unfold launched. cbn. rewrite Hl. intros x Hx.
          apply elem_of_cons in Hx as [->|Hx]; [lia|].
          apply Hout in Hx. lia. }
      destruct (Z.gtb_spec (q + 1) (high st)) as [Hempty|Hsome].
      * right. eapply commit_ends; [eapply ready_settled; [exact Hr|cbn; lia]| |cbn; lia|done].
        cbn. split; [done|]. by replace (q + 1) with (high st + 1) by lia.
      * rewrite al_max_attempts0, Z.geb_leb.
        destruct (Z.leb_spec 12 (attempt st)) as [Hmax|Hmore].
        { right. eapply commit_ends; [eapply ready_settled; [exact Hr|cbn; lia]| |cbn; lia|done].
          cbn. split; [done|].
          pose proof (halvings_pos (high st - (q + 1) + 1)). lia. }
        left. eapply next_continues; [exact Hr|cbn; lia|cbn; lia|done].
    + assert (Hr : ready Obs T QM
        (with_search (Some (with_high (q - 1) st))
           (with_disk (unlink (TmpPath p) (disk w))
              (dispose_ffmpeg_process (with_finalized true w))))
        (with_high (q - 1) st) b bs bp).
      { split; cbn; try done; try lia.
        - unfold unlink. by rewrite lookup_delete_ne by congruence.
        - intros k Hk. unfold unlink in Hk.
          destruct (decide (k = p)) as [->|Hkp].
          { rewrite lookup_delete_eq in Hk. by destruct Hk. }
          rewrite lookup_delete_ne in Hk by congruence.
          destruct (al_disk0 k Hk); congruence.
        - repeat split; try done; lia.
        - replace (q - 1 + 1) with q by lia. exists sz. by split.
        - unfold launched. cbn. rewrite Hl. intros x Hx.
          apply elem_of_cons in Hx as [->|Hx]; [lia|].
          apply Hout in Hx. lia. }
      destruct (Z.gtb_spec (low st) (q - 1)) as [Hempty|Hsome].
      * right. eapply commit_ends; [eapply ready_settled; [exact Hr|cbn; lia]| |cbn; lia|done].
        cbn. split; [done|]. exists sz. split; [|done].
        by replace (b + 1) with q by lia.
      * rewrite al_max_attempts0, Z.geb_leb.
        destruct (Z.leb_spec 12 (attempt st)) as [Hmax|Hmore].
        { right. eapply commit_ends; [eapply ready_settled; [exact Hr|cbn; lia]| |cbn; lia|done].
          cbn. split; [done|].
          pose proof (halvings_pos (q - 1 - low st + 1)). lia. }
        left. eapply next_continues; [exact Hr|cbn; lia|cbn; lia|done].
Qed.

End Preservation.

(** ** Whole runs *)

Section Traces.

Variable Obs : Z -> Z -> Prop.

Lemma start_alive (existing : option File) (target_mb quality : Z)
    (c : CropSpec) (side rate : Z) :
  exists st,
    alive Obs (target_of target_mb) (ceiling_of quality)
      (start_limited existing target_mb quality c side rate)
      st 0%nat (ceiling_of quality) /\
    size_search (start_limited existing target_mb quality c side rate) = Some st.
Proof.
  unfold start_limited, make_badge, target_of, ceiling_of.
  rewrite andb_false_r. cbn.
  pose proof (halvings_nonneg (Z.max 1 quality - 2)).
  eexists. split; [|reflexivity].
  split; try done; cbn; try done; try lia.
  - intros k Hk. pose proof (idle_no_temp existing k) as Hn. cbn in Hn.
    rewrite Hn in Hk. by destruct Hk.
  - intros f Hf. pose proof (idle_no_temp existing 0) as Hn. cbn in Hn.
    by rewrite Hn in Hf.
  - intros _. apply NoDup_singleton.
  - by apply pi_test_max.
Qed.

Variables T QM : Z.

Lemma deliver_inv (w : MainWindow) (e : Event) :
  job_inv Obs T QM w -> honest Obs w e -> job_inv Obs T QM (deliver w e).
Proof.
  intros [(st & p & q & Ha)|Hf] He.
  - destruct e as [size|exit_ok details os_ok|details|]; cbn.
    + left. exists st, p, q. apply write_alive; [done|].
      apply He. by destruct Ha.
    + destruct (finished_step Obs T QM w st p q exit_ok details os_ok Ha)
        as [(st' & p' & q' & Ha' & _)|[Hf _]].
      * left. by exists st', p', q'.
      * by right.
    + right. by eapply error_finished.
    + right. by eapply cancel_finished.
  - right. by rewrite (finished_stable _ _ _ _ _ Hf).
Qed.

Lemma exec_inv (evs : list Event) (w : MainWindow) :
  job_inv Obs T QM w -> honest_trace Obs w evs -> job_inv Obs T QM (exec evs w).
Proof.
  revert w. induction evs as [|e evs IH]; intros w Hw Hh; [done|].
  destruct Hh as [He Hh]. cbn. apply IH; [|done]. by apply deliver_inv.
Qed.

End Traces.

Lemma any_size_honest (w : MainWindow) (evs : list Event) :
  honest_trace any_size w evs.
Proof.
  revert w. induction evs as [|e evs IH]; intros w; [done|].
  split; [|apply IH]. by destruct e.
Qed.

(** Every world a size-limited job can be in satisfies the invariant. *)
Lemma run_inv (existing : option File) (target_mb quality : Z)
    (c : CropSpec) (side rate : Z) (evs : list Event) :
  job_inv any_size (target_of target_mb) (ceiling_of quality)
    (exec evs (start_limited existing target_mb quality c side rate)).
Proof.
  apply exec_inv; [|apply any_size_honest]. left.
  destruct (start_alive any_size existing target_mb quality c side rate)
    as (st & Ha & _).
  eauto.
Qed.

Lemma reported_finished (Obs : Z -> Z -> Prop) (T QM : Z) (w : MainWindow)
    (r : Report) :
  job_inv Obs T QM w -> r ∈ reports w ->
  finished Obs T QM w /\ reports w = [r] /\
  report_ok Obs T QM (disk w) (length (launches w)) r.
Proof.
  intros [(st & p & q & Ha)|Hf] Hr.
  - destruct Ha. rewrite al_reports0 in Hr. by apply not_elem_of_nil in Hr.
  - split; [done|]. destruct Hf.
    destruct fi_reports0 as (r' & Hr' & Hok). rewrite Hr' in Hr.
    apply list_elem_of_singleton in Hr. by subst.
Qed.



(** ** The claims *)

Section Claims.

Variables (existing : option File) (target_mb quality : Z).
Variables (c : CropSpec) (side rate : Z).

(** C4.  Every size-limited run that ends with the success dialog has
    committed a best result whose recorded size, which is the size of the
    file now at the final path, is at most [target_bytes], or whose quality
    is [quality_min]. *)
Theorem done_fits_or_lowest (evs : list Event) (r : Report) :
  let w0 := start_limited existing target_mb quality c side rate in
  let w := exec evs w0 in
  r ∈ reports w -> outcome r = Done ->
  exists st0 b s n,
    size_search w0 = Some st0 /\
    message r = msg_output OutPath (Some b) (Some s) n /\
    disk w !! OutPath = Some (mkFile s (Some b)) /\
    (s <= target_bytes st0 \/ b = quality_min st0).
Proof.
  intros w0 w Hr Hdone.
  destruct (start_alive any_size existing target_mb quality c side rate)
    as (st0 & Ha & Hst0).
  destruct (reported_finished _ _ _ _ _
              (run_inv existing target_mb quality c side rate evs) Hr)
    as (_ & _ & Hok).
  destruct (ro_done _ _ _ _ _ _ Hok Hdone)
    as (b & s & n & Hm & _ & _ & Hn & _ & Hd).
  exists st0, b, s, n. repeat split; try done.
  rewrite (al_target _ _ _ _ _ _ _ Ha), (al_qmin _ _ _ _ _ _ _ Ha).
  by apply note_ok_fits in Hn.
Qed.

(** C5.  The encodes launched by a size-limited run, over all three
    phases, number at most [2 + max_attempts]. *)
Theorem attempts_bounded (evs : list Event) :
  let w0 := start_limited existing target_mb quality c side rate in
  exists st0,
    size_search w0 = Some st0 /\
    Z.of_nat (length (launches (exec evs w0))) <= 2 + max_attempts st0.
Proof.
  intros w0.
  destruct (start_alive any_size existing target_mb quality c side rate)
    as (st0 & Ha & Hst0).
  exists st0. split; [done|]. rewrite (al_max_attempts _ _ _ _ _ _ _ Ha).
  destruct (run_inv existing target_mb quality c side rate evs)
    as [(st & p & q & Hal)|Hf].
  - pose proof (al_count _ _ _ _ _ _ _ Hal). fold w0 in H. lia.
  - pose proof (fi_count _ _ _ _ Hf). fold w0 in H. lia.
Qed.



(** C10.  Whenever a size-limited run enters the commit step a best result
    is recorded, with a temp path and a quality of at least
    [quality_min = 1]; the dialog "no usable output" is never shown. *)
Theorem commit_has_best (evs : list Event) :
  let w := exec evs (start_limited existing target_mb quality c side rate) in
  Forall commit_ok (commits w) /\
  Forall (fun r => message r <> msg_no_usable_output) (reports w).
Proof.
  intros w.
  destruct (run_inv existing target_mb quality c side rate evs)
    as [(st & p & q & Hal)|Hf].
  - destruct Hal. fold w in al_reports0, al_commits0.
    rewrite al_reports0, al_commits0. by split.
  - destruct Hf. fold w in fi_reports0, fi_commits0.
    split; [by apply Forall_forall|].
    destruct fi_reports0 as (r & -> & Hok).
    apply Forall_singleton. by destruct Hok.
Qed.

(** C6, amended.  When [quality_min < quality_max], that is when the slider
    is above 1, a size-limited run launches no quality twice. *)
Theorem qualities_distinct (evs : list Event) :
  1 < quality ->
  NoDup (qualities
           (exec evs (start_limited existing target_mb quality c side rate))).
Proof.
  intros Hq. unfold qualities. rewrite map_rev.
  apply NoDup_ListNoDup, List.NoDup_rev, NoDup_ListNoDup.
  assert (Hne : ceiling_of quality <> 1) by (unfold ceiling_of; lia).
  destruct (run_inv existing target_mb quality c side rate evs)
    as [(st & p & q & Hal)|Hf].
  - by apply (al_nodup _ _ _ _ _ _ _ Hal).
  - by apply (fi_nodup _ _ _ _ Hf).
Qed.



End Claims.

(** ** Runs against an encoder whose size is a function of the quality *)

Lemma finished_run (Obs : Z -> Z -> Prop) (T QM : Z) (size : Z -> Z)
    (n : nat) (w : MainWindow) :
  finished Obs T QM w -> run size n w = w.
Proof.
  intros Hf. induction n as [|n IH]; [done|].
  cbn. unfold encode_once. destruct (current_quality w); [|done].
  by rewrite !(finished_stable _ _ _ _ _ Hf).
Qed.

Lemma encode_step (size : Z -> Z) (T QM : Z) (w : MainWindow)
    (st : SizeSearchState) (p : nat) (q : Z) :
  alive (sized size) T QM w st p q ->
  continues (sized size) T QM w (encode_once size w) \/
  ends (sized size) T QM (Some true) w (encode_once size w).
Proof.
  intros Ha. unfold encode_once. rewrite (al_quality _ _ _ _ _ _ _ Ha).
  cbn [deliver].
  assert (Hw : alive (sized size) T QM (ffmpeg_writes (size q) w) st p q).
  { by apply write_alive. }
  assert (Hl : launches (ffmpeg_writes (size q) w) = launches w).
  { unfold ffmpeg_writes.
    rewrite (al_process _ _ _ _ _ _ _ Ha), (al_pending _ _ _ _ _ _ _ Ha). done. }
  assert (Hd : is_Some (disk (ffmpeg_writes (size q) w) !! TmpPath p)).
  { unfold ffmpeg_writes.
    rewrite (al_process _ _ _ _ _ _ _ Ha), (al_pending _ _ _ _ _ _ _ Ha).
    cbn. rewrite lookup_insert_eq. by eexists. }
  destruct (finished_step _ _ _ _ st p q true "" true Hw)
    as [(st' & p' & q' & Ha' & Hl')|(Hf & Hl' & Hv)].
  - left. exists st', p', q'. split; [done|]. by rewrite Hl', Hl.
  - right. split; [done|]. split; [by rewrite Hl', Hl|].
    cbn in Hv. by rewrite bool_decide_eq_true_2 in Hv.
Qed.

Lemma run_result (size : Z -> Z) (T QM : Z) (n : nat) (w : MainWindow)
    (st : SizeSearchState) (p : nat) (q : Z) :
  alive (sized size) T QM w st p q ->
  (exists st' p' q',
     alive (sized size) T QM (run size n w) st' p' q' /\
     length (launches (run size n w)) = (length (launches w) + n)%nat) \/
  (finished (sized size) T QM (run size n w) /\
   exists m, reports (run size n w) = [mkReport Done m]).
Proof.
  revert w st p q. induction n as [|n IH]; intros w st p q Ha.
  - left. exists st, p, q. split; [done|]. cbn. lia.
  - cbn [run]. destruct (encode_step size T QM w st p q Ha)
      as [(st' & p' & q' & Ha' & Hl)|(Hf & _ & Hv)].
    + destruct (IH _ _ _ _ Ha') as [(st2 & p2 & q2 & Ha2 & Hl2)|Hfin].
      * left. exists st2, p2, q2. split; [done|].
        rewrite Hl2, Hl. cbn. lia.
      * by right.
    + right. by rewrite (finished_run _ _ _ _ _ _ Hf).
Qed.

(** C3.  With an encoder whose size does not decrease in the quality, a
    first attempt above the target and a lowest attempt within it, the
    run ends with the success dialog for the largest quality of the range
    whose size is within the target, after at most
    [log2_up (quality_max - quality_min) + 2] attempts, provided
    [max_attempts] allows that many probes of the interval. *)
Theorem refine_finds_largest (existing : option File) (target_mb quality : Z)
    (c : CropSpec) (side rate : Z) (size : Z -> Z) (st0 : SizeSearchState) :
  let w0 := start_limited existing target_mb quality c side rate in
  size_search w0 = Some st0 ->
  (forall a b, quality_min st0 <= a -> a <= b -> b <= quality_max st0 ->
               size a <= size b) ->
  target_bytes st0 < size (quality_max st0) ->
  size (quality_min st0) <= target_bytes st0 ->
  Z.log2_up (quality_max st0 - quality_min st0) <= max_attempts st0 ->
  let bound := Z.log2_up (quality_max st0 - quality_min st0) + 2 in
  let w := run size (Z.to_nat bound) w0 in
  exists q note,
    reports w = [mkReport Done (msg_output OutPath (Some q) (Some (size q)) note)] /\
    disk w !! OutPath = Some (mkFile (size q) (Some q)) /\
    quality_min st0 <= q <= quality_max st0 /\
    size q <= target_bytes st0 /\
    (forall q', quality_min st0 <= q' <= quality_max st0 ->
                size q' <= target_bytes st0 -> q' <= q) /\
    Z.of_nat (length (launches w)) <= bound.
Proof.
  intros w0 Hst0.
  destruct (start_alive (sized size) existing target_mb quality c side rate)
    as (st & Ha & Hst).
  fold w0 in Ha, Hst. rewrite Hst in Hst0. injection Hst0 as <-.
  rewrite (al_target _ _ _ _ _ _ _ Ha), (al_qmin _ _ _ _ _ _ _ Ha),
    (al_qmax _ _ _ _ _ _ _ Ha), (al_max_attempts _ _ _ _ _ _ _ Ha).
  set (T := target_of target_mb) in *. set (QM := ceiling_of quality) in *.
  intros Hmono Hhigh Hlow Hcap bound w.
  pose proof (Z.log2_up_nonneg (QM - 1)) as Hnn.
  assert (Hhalv : halvings (QM - 2) = Z.log2_up (QM - 1)).
  { replace (QM - 2) with (QM - 1 - 1) by lia. apply halvings_log2_up. }
  destruct (run_result size T QM (Z.to_nat bound) w0 st 0 QM Ha)
    as [(st' & p' & q' & Ha' & Hlen)|(Hf & m & Hm)]; fold w in Ha', Hlen || fold w in Hf, Hm.
  - exfalso. pose proof (al_count_log _ _ _ _ _ _ _ Ha') as Hc.
    rewrite Hlen, Hhalv in Hc.
    assert (length (launches w0) = 1%nat) as Hone.
    { pose proof (al_phase _ _ _ _ _ _ _ Ha) as Hph.
      assert (Hl : length (launched w0) = 1%nat).
      { unfold w0, start_limited, make_badge. by rewrite andb_false_r. }
      unfold launched in Hl. by rewrite length_map in Hl. }
    unfold bound in Hc. lia.
  - destruct (fi_reports _ _ _ _ Hf) as (r & Hr & Hok).
    rewrite Hm in Hr. injection Hr as <-.
    destruct (ro_done _ _ _ _ _ _ Hok eq_refl)
      as (b & s & n & Hmsg & Hb & Hobs & Hn & _ & Hd).
    cbn in Hmsg. unfold sized in Hobs. subst s m.
    pose proof (fi_count_log _ _ _ _ Hf) as Hc. rewrite Hhalv in Hc.
    exists b, n. split; [done|]. split; [done|]. split; [lia|].
    destruct n as [|q'' s''| | |]; cbn in Hn.
    + destruct Hn as [-> Hfit]. lia.
    + destruct Hn as (-> & Hbig & _). lia.
    + destruct Hn as (-> & Hfit & HQM & (s' & Hs' & Hbig)).
      unfold sized in Hs'. subst s'.
      split; [done|]. split; [|unfold bound; lia].
      intros x Hx Hxfit. destruct (decide (x <= 1)) as [|Hgt]; [done|].
      assert (x = QM) by lia. subst x. lia.
    + destruct Hn as (Hfit & (s' & Hs' & Hbig)).
      unfold sized in Hs'. subst s'.
      split; [done|]. split; [|unfold bound; lia].
      intros x Hx Hxfit. destruct (decide (x <= b)) as [|Hgt]; [done|].
      assert (size (b + 1) <= size x) by (apply Hmono; lia). lia.
    + destruct Hn as (_ & Hcut). lia.
Qed.


Lemma start_launches (existing : option File) (target_mb quality : Z)
    (c : CropSpec) (side rate : Z) :
  launches (start_limited existing target_mb quality c side rate)
  = [(ceiling_of quality, TmpPath 0)].
Proof. unfold start_limited, make_badge. by rewrite andb_false_r. Qed.

(** C2, amended.  When [quality_min = quality_max] (the slider is at 1 or
    below) and the encoder always succeeds, the run ends with the success
    dialog after one attempt if that attempt is within the target, and
    after two attempts at the same quality if it is not. *)
Theorem single_quality_run (existing : option File) (target_mb quality : Z)
    (c : CropSpec) (side rate : Z) (size : Z -> Z) :
  quality <= 1 ->
  let w := run size 2 (start_limited existing target_mb quality c side rate) in
  ffmpeg_process w = false /\
  (exists m, reports w = [mkReport Done m]) /\
  qualities w = if size 1 <=? target_of target_mb then [1] else [1; 1].
Proof.
  intros Hq.
  destruct (start_alive (sized size) existing target_mb quality c side rate)
    as (st & Ha & _).
  pose proof (start_launches existing target_mb quality c side rate) as Hl0.
  assert (HQM : ceiling_of quality = 1) by (unfold ceiling_of; lia).
  rewrite HQM in *.
  set (w0 := start_limited existing target_mb quality c side rate) in *.
  set (T := target_of target_mb) in *.
  change (run size 2 w0) with (run size 1 (encode_once size w0)). cbv zeta.
  destruct (encode_step size T 1 w0 st 0 1 Ha)
    as [(st1 & p1 & q1 & Ha1 & Hl1)|(Hf & Hl1 & m & Hm)].
  - (* a second attempt was launched *)
    rewrite Hl0 in Hl1.
    assert (Hbig : T < size 1 /\ launched (encode_once size w0) = [1; 1]).
    { destruct (al_phase _ _ _ _ _ _ _ Ha1)
        as [_ _ _ _ Hl | _ _ _ _ Hl (s & Hs & Hex) | ]; [| |lia].
      - unfold launched in Hl. by rewrite Hl1 in Hl.
      - unfold sized in Hs. subst s. done. }
    destruct Hbig as [Hbig Hl].
    destruct (Z.leb_spec (size 1) T) as [?|_]; [lia|].
    change (run size 1 (encode_once size w0))
      with (encode_once size (encode_once size w0)).
    destruct (encode_step size T 1 _ st1 p1 q1 Ha1)
      as [(st2 & p2 & q2 & Ha2 & Hl2)|(Hf & Hl2 & m & Hm)].
    + exfalso. rewrite Hl1 in Hl2.
      destruct (al_phase _ _ _ _ _ _ _ Ha2)
        as [_ _ _ _ Hl' | _ _ _ _ Hl' _ | ]; [| |lia].
      * unfold launched in Hl'. by rewrite Hl2 in Hl'.
      * unfold launched in Hl'. by rewrite Hl2 in Hl'.
    + split; [by destruct Hf|]. split; [by exists m|].
      unfold qualities. rewrite map_rev, Hl2.
      unfold launched in Hl. by rewrite Hl.
  - (* the first attempt was committed *)
    rewrite (finished_run _ _ _ _ _ _ Hf).
    split; [by destruct Hf|]. split; [by exists m|].
    destruct (fi_reports _ _ _ _ Hf) as (r & Hr & Hok).
    rewrite Hm in Hr. injection Hr as <-.
    destruct (ro_done _ _ _ _ _ _ Hok eq_refl)
      as (b & s & n & _ & Hb & Hobs & Hn & Hcnt & _).
    rewrite Hl1, Hl0 in Hcnt. unfold sized in Hobs.
    assert (b = 1) by lia. subst b s.
    destruct n; cbn in Hcnt; try discriminate Hcnt; try lia.
    destruct Hn as [_ Hfit].
    destruct (Z.leb_spec (size 1) T) as [_|?]; [|lia].
    unfold qualities. by rewrite Hl1, Hl0.
Qed.

(** ** The claims on concrete runs *)

(** A 100 pixel crop at the origin, an encoder that needs 100000 bytes
    per quality step, and the events of a run whose first attempt is too
    big and whose second fits. *)
Definition crop0 : CropSpec := mkCrop 0 0 100.
Definition linear_size (q : Z) : Z := q * 100000.
Definition two_probes : list Event :=
  [ev_write 8000000; ev_finished true "" true;
   ev_write 500000; ev_finished true "" true].


(** C2 as stated fails: with the slider at 1 and a target below the size
    of the attempt, the run makes two attempts. *)
Lemma single_attempt_counterexample :
  let w0 := start_limited None 1 1 crop0 100 30 in
  let w := run (fun _ => 2000000) 2 w0 in
  (quality_min <$> size_search w0) = Some 1 /\
  (quality_max <$> size_search w0) = Some 1 /\
  ffmpeg_process w = false /\
  length (launches w) <> 1%nat.
Proof. vm_compute. repeat split; congruence. Qed.

(** C6 as stated fails: in the same run quality 1 is launched twice. *)
Lemma repeated_quality_counterexample :
  let w := run (fun _ => 2000000) 2 (start_limited None 1 1 crop0 100 30) in
  qualities w = [1; 1] /\ ~ NoDup (qualities w).
Proof.
  split; [by vm_compute|].
  intros Hnd. vm_compute in Hnd. apply NoDup_cons in Hnd as [Hin _].
  apply Hin. by left.
Qed.


(** The theorems with hypotheses, at concrete runs. *)


Lemma single_quality_run_witness :
  let w := run (fun _ => 2000000) 2 (start_limited None 1 1 crop0 100 30) in
  1 <= 1 /\ ffmpeg_process w = false /\ qualities w = [1; 1].
Proof.
  intros w. split; [lia|].
  destruct (single_quality_run None 1 1 crop0 100 30 (fun _ => 2000000))
    as (Hp & _ & Hq); [lia|].
  by split.
Defined.

Lemma refine_finds_largest_witness :
  let w0 := start_limited None 5 100 crop0 100 30 in
  let w := run linear_size 9 w0 in
  exists st0 q note,
    size_search w0 = Some st0 /\
    target_bytes st0 < linear_size (quality_max st0) /\
    linear_size (quality_min st0) <= target_bytes st0 /\
    Z.log2_up (quality_max st0 - quality_min st0) <= max_attempts st0 /\
    reports w = [mkReport Done
                   (msg_output OutPath (Some q) (Some (linear_size q)) note)] /\
    linear_size q <= target_bytes st0 /\
    (forall q', quality_min st0 <= q' <= quality_max st0 ->
                linear_size q' <= target_bytes st0 -> q' <= q).
Proof.
  intros w0 w.
  destruct (size_search w0) as [st0|] eqn:Hst; [|by vm_compute in Hst].
  assert (Hfields : quality_min st0 = 1 /\ quality_max st0 = 100 /\
                    target_bytes st0 = 5242880 /\ max_attempts st0 = 12).
  { vm_compute in Hst. injection Hst as <-. by repeat split. }
  destruct Hfields as (Hmin & Hmax & Htarget & Hatt).
  assert (Hhigh : target_bytes st0 < linear_size (quality_max st0)).
  { rewrite Htarget, Hmax. unfold linear_size. lia. }
  assert (Hlow : linear_size (quality_min st0) <= target_bytes st0).
  { rewrite Htarget, Hmin. unfold linear_size. lia. }
  assert (Hcap : Z.log2_up (quality_max st0 - quality_min st0) <= max_attempts st0).
  { rewrite Hmin, Hmax, Hatt. by vm_compute. }
  destruct (refine_finds_largest None 5 100 crop0 100 30 linear_size st0 Hst)
    as (q & note & Hr & _ & _ & Hfit & Hbest & _); try done.
  { intros a b _ Hab _. unfold linear_size. lia. }
  exists st0, q, note. repeat split; try done.
  rewrite Hmin, Hmax in Hr. exact Hr.
Defined.

Lemma done_fits_or_lowest_witness :
  let w0 := start_limited None 5 100 crop0 100 30 in
  let w := exec [ev_write 3000000; ev_finished true "" true] w0 in
  let r := mkReport Done
             (msg_output OutPath (Some 100) (Some 3000000) note_met_at_max) in
  r ∈ reports w /\ outcome r = Done /\
  disk w !! OutPath = Some (mkFile 3000000 (Some 100)).
Proof.
  intros w0 w r.
  assert (Hr : r ∈ reports w) by (vm_compute; constructor).
  split; [done|]. split; [done|].
  destruct (done_fits_or_lowest None 5 100 crop0 100 30
              [ev_write 3000000; ev_finished true "" true] r Hr eq_refl)
    as (st0 & b & s & n & _ & Hm & Hd & _).
  injection Hm as <- <- _. exact Hd.
Defined.

Lemma qualities_distinct_witness :
  1 < 100 /\
  NoDup (qualities (exec two_probes (start_limited None 5 100 crop0 100 30))).
Proof.
  split; [lia|].
  apply (qualities_distinct None 5 100 crop0 100 30 two_probes). lia.
Defined.



(** ** Further properties of the size-limited job *)

Section MoreOnRuns.

Variables (existing : option File) (target_mb quality : Z).
Variables (c : CropSpec) (side rate : Z).

(** X1.  Whatever the encoder does, a size-limited run launches at most
    [2 + log2_up (quality_max - 1)] encodes: the two probes and a
    bisection of the qualities between them. *)
Theorem attempts_log_bounded (evs : list Event) :
  Z.of_nat (length (launches
     (exec evs (start_limited existing target_mb quality c side rate))))
  <= 2 + Z.log2_up (ceiling_of quality - 1).
Proof.
  rewrite <- halvings_log2_up.
  replace (ceiling_of quality - 1 - 1) with (ceiling_of quality - 2) by lia.
  destruct (run_inv existing target_mb quality c side rate evs)
    as [(st & p & q & Hal)|Hf].
  - apply (al_count_log _ _ _ _ _ _ _ Hal).
  - apply (fi_count_log _ _ _ _ Hf).
Qed.

(** X2.  As long as the slider is at most 4097 (it goes up to 100), the
    success dialog never carries the note "maximal number of attempts
    reached": the limit of 12 probes cannot cut the bisection short. *)
Theorem max_attempts_note_unreachable (evs : list Event) (r : Report)
    (p : Path) (q s : option Z) :
  quality <= 4097 ->
  r ∈ reports (exec evs (start_limited existing target_mb quality c side rate)) ->
  outcome r = Done ->
  message r <> msg_output p q s note_max_attempts.
Proof.
  intros Hq Hr Hdone Hm.
  destruct (reported_finished _ _ _ _ _
              (run_inv existing target_mb quality c side rate evs) Hr)
    as (_ & _ & Hok).
  destruct (ro_done _ _ _ _ _ _ Hok Hdone)
    as (b & s' & n & Hm' & _ & _ & Hn & _ & _).
  rewrite Hm in Hm'. injection Hm' as _ _ _ <-.
  cbn in Hn. destruct Hn as [_ Hcut].
  replace (ceiling_of quality - 2) with (ceiling_of quality - 1 - 1) in Hcut by lia.
  rewrite halvings_log2_up in Hcut.
  assert (Z.log2_up (ceiling_of quality - 1) <= Z.log2_up 4096).
  { apply Z.log2_up_le_mono. unfold ceiling_of. lia. }
  change (Z.log2_up 4096) with 12 in *. lia.
Qed.

(** X3.  The note "target met" of the first probe is truthful: the
    committed quality is [quality_max], its file is within the target,
    and it was the only encode of the run. *)
Theorem met_at_max_note_truthful (evs : list Event) (r : Report)
    (p : Path) (q s : Z) :
  let w := exec evs (start_limited existing target_mb quality c side rate) in
  r ∈ reports w -> outcome r = Done ->
  message r = msg_output p (Some q) (Some s) note_met_at_max ->
  q = ceiling_of quality /\ s <= target_of target_mb /\
  disk w !! OutPath = Some (mkFile s (Some q)) /\
  length (launches w) = 1%nat.
Proof.
  intros w Hr Hdone Hm.
  destruct (reported_finished _ _ _ _ _
              (run_inv existing target_mb quality c side rate evs) Hr)
    as (_ & _ & Hok).
  destruct (ro_done _ _ _ _ _ _ Hok Hdone)
    as (b & s' & n & Hm' & _ & _ & Hn & Hcnt & Hd).
  rewrite Hm in Hm'. injection Hm' as -> <- <- <-.
  cbn in Hn, Hcnt. destruct Hn as [-> Hfit]. by repeat split.
Qed.

(** X4.  The note "target cannot be reached" is truthful: the committed
    file was encoded at quality 1, is larger than the target, and the run
    made exactly two encodes. *)
Theorem unattainable_note_truthful (evs : list Event) (r : Report)
    (p : Path) (q s q' s' : Z) :
  let w := exec evs (start_limited existing target_mb quality c side rate) in
  r ∈ reports w -> outcome r = Done ->
  message r = msg_output p (Some q) (Some s) (note_unattainable q' s') ->
  q = 1 /\ q' = 1 /\ s' = s /\ target_of target_mb < s /\
  disk w !! OutPath = Some (mkFile s (Some 1)) /\
  length (launches w) = 2%nat.
Proof.
  intros w Hr Hdone Hm.
  destruct (reported_finished _ _ _ _ _
              (run_inv existing target_mb quality c side rate evs) Hr)
    as (_ & _ & Hok).
  destruct (ro_done _ _ _ _ _ _ Hok Hdone)
    as (b & s0 & n & Hm' & _ & _ & Hn & Hcnt & Hd).
  rewrite Hm in Hm'. injection Hm' as -> <- <- <-.
  cbn in Hn, Hcnt. destruct Hn as (-> & Hbig & -> & ->). by repeat split.
Qed.


End MoreOnRuns.

(** X6.  Cancellation is final, for every window: after
    [_cancel_make_badge] a further cancel, a late signal of the killed
    process and a late write change nothing. *)
Theorem cancel_is_final (w : MainWindow) (e : Event) :
  deliver (cancel_make_badge w) e = cancel_make_badge w.
Proof.
  assert (Hp : ffmpeg_process (cancel_make_badge w) = false).
  { unfold cancel_make_badge. by destruct (ffmpeg_process w) eqn:E. }
  destruct e; cbn;
    unfold ffmpeg_writes, on_ffmpeg_finished, on_ffmpeg_error;
    try (by rewrite Hp).
  unfold cancel_make_badge at 1. by rewrite Hp.
Qed.

(** ** What a failing run does to the disk *)

Lemma filter_tokens_out (n : nat) (P : Path -> Prop)
    `{!forall x, Decision (P x)} :
  OutPath ∉ filter P (tokens n).
Proof.
  intros Hin. apply list_elem_of_filter in Hin as [_ Hin].
  by apply OutPath_not_token in Hin.
Qed.

Lemma idle_out (existing : option File) :
  disk (idle_window existing) !! OutPath = existing.
Proof. destruct existing; cbn; [apply lookup_singleton_eq|apply lookup_empty]. Qed.


Lemma abort_shape (w : MainWindow) (st : SizeSearchState) (m : Message) :
  size_search w = Some st -> job_was_canceled w = false -> reports w = [] ->
  let w' := abort_job m w in
  reports w' = [mkReport Failed m] /\ ffmpeg_process w' = false /\
  launches w' = launches w /\
  disk w' = unlink_all (temp_paths st) (disk w).
Proof.
  intros Hs Hc Hr. unfold abort_job, cleanup_size_search_temp_files. rewrite Hs.
  destruct w; cbn in *; subst. done.
Qed.

(** Except when it shows the success dialog, the handler of the finished
    signal leaves the final path as it is. *)
Lemma finished_keeps_final (Obs : Z -> Z -> Prop) (T QM : Z) (w : MainWindow)
    (st : SizeSearchState) (p : nat) (q : Z) (exit_ok : bool) (details : string)
    (os_ok : bool) :
  alive Obs T QM w st p q ->
  let w' := on_ffmpeg_finished exit_ok details os_ok w in
  (exists m, reports w' = [mkReport Done m]) \/
  disk w' !! OutPath = disk w !! OutPath.
Proof.
  intros Ha.
  pose proof (al_phase _ _ _ _ _ _ _ Ha) as Hphase.
  assert (Hph : phase st = "test_max" /\ best_temp_path st = None \/
                phase st = "test_min" /\ best_temp_path st = None \/
                phase st = "binary" /\
                exists bp, best_temp_path st = Some (TmpPath bp)).
  { destruct Hphase; eauto 6. }
  clear Hphase.
  pose proof (al_process _ _ _ _ _ _ _ Ha) as H1.
  pose proof (al_finalized _ _ _ _ _ _ _ Ha) as H2.
  pose proof (al_search _ _ _ _ _ _ _ Ha) as H3.
  pose proof (al_pending _ _ _ _ _ _ _ Ha) as H4.
  pose proof (al_quality _ _ _ _ _ _ _ Ha) as H5.
  pose proof (al_final_path _ _ _ _ _ _ _ Ha) as H6.
  pose proof (al_temp_paths _ _ _ _ _ _ _ Ha) as H7.
  pose proof (al_reports _ _ _ _ _ _ _ Ha) as H8.
  clear Ha.
  destruct w, st. cbn in *. subst.
  unfold on_ffmpeg_finished, handle_size_search_attempt,
    apply_best_size_search_result, start_next_binary_search_attempt,
    finalize_size_search, cleanup_size_search_temp_files,
    path_replace, stat_size, unlink.
  cbn.
  destruct Hph as [[-> ->] | [[-> ->] | [-> [bp ->]]]]; cbn;
    repeat (case_match; cbn; simplify_eq/=);
    try (by left; eexists);
    right;
    rewrite ?lookup_unlink_all_notin
      by (apply OutPath_not_token || apply filter_tokens_out);
    rewrite ?lookup_delete_ne by done; try done.
Qed.


Section Failures.

Variables (existing : option File) (target_mb quality : Z).
Variables (c : CropSpec) (side rate : Z).





End Failures.

Lemma cancel_report (Obs : Z -> Z -> Prop) (T QM : Z) (w : MainWindow)
    (st : SizeSearchState) (p : nat) (q : Z) :
  alive Obs T QM w st p q ->
  reports (cancel_make_badge w) = [mkReport Canceled msg_canceled].
Proof.
  intros Ha. unfold cancel_make_badge.
  rewrite (al_process _ _ _ _ _ _ _ Ha). cbn.
  unfold cleanup_size_search_temp_files. cbn.
  rewrite (al_search _ _ _ _ _ _ _ Ha). cbn.
  rewrite (al_final_out _ _ _ _ _ _ _ Ha), (al_pending _ _ _ _ _ _ _ Ha).
  cbn. by rewrite (al_reports _ _ _ _ _ _ _ Ha).
Qed.

Section Frame.

Variable existing : option File.
Variables T QM : Z.

(** No dialog yet, or the failure dialog. *)
Let unsaved (w : MainWindow) : Prop :=
  reports w = [] \/ exists m, reports w = [mkReport Failed m].

Lemma deliver_keeps (w : MainWindow) (e : Event) :
  job_inv any_size T QM w ->
  (unsaved w -> disk w !! OutPath = existing) ->
  unsaved (deliver w e) -> disk (deliver w e) !! OutPath = existing.
Proof.
  unfold unsaved. intros [(st & p & q & Ha)|Hf] Hk Hun.
  2:{ rewrite (finished_stable _ _ _ _ _ Hf) in *. by apply Hk. }
  assert (Hd : disk w !! OutPath = existing).
  { apply Hk. left. apply (al_reports _ _ _ _ _ _ _ Ha). }
  clear Hk. destruct e as [size|exit_ok details os_ok|details|].
  - cbn. unfold ffmpeg_writes.
    rewrite (al_process _ _ _ _ _ _ _ Ha), (al_pending _ _ _ _ _ _ _ Ha).
    cbn. by rewrite lookup_insert_ne.
  - cbn [deliver] in *.
    destruct (finished_keeps_final _ _ _ _ _ _ _ exit_ok details os_ok Ha)
      as [(m & Hm)|Hsame]; [|by rewrite Hsame].
    exfalso. destruct Hun as [Hun|(m' & Hun)]; rewrite Hm in Hun; done.
  - cbn [deliver]. unfold on_ffmpeg_error.
    rewrite (al_process _ _ _ _ _ _ _ Ha), (al_finalized _ _ _ _ _ _ _ Ha).
    cbn [negb]. cbv zeta.
    destruct (abort_shape (with_finalized true w) st
                (details_or details msg_ffmpeg_failed))
      as (_ & _ & _ & Hdisk);
      [apply (al_search _ _ _ _ _ _ _ Ha)|apply (al_canceled _ _ _ _ _ _ _ Ha)
      |apply (al_reports _ _ _ _ _ _ _ Ha)|].
    rewrite Hdisk, (al_temp_paths _ _ _ _ _ _ _ Ha).
    rewrite lookup_unlink_all_notin by apply OutPath_not_token. exact Hd.
  - exfalso. cbn [deliver] in Hun.
    rewrite (cancel_report _ _ _ _ _ _ _ Ha) in Hun.
    destruct Hun as [Hun|(m' & Hun)]; done.
Qed.

Lemma exec_keeps (evs : list Event) (w : MainWindow) :
  job_inv any_size T QM w ->
  (unsaved w -> disk w !! OutPath = existing) ->
  unsaved (exec evs w) -> disk (exec evs w) !! OutPath = existing.
Proof.
  revert w. induction evs as [|e evs IH]; intros w Hinv Hk; [done|].
  cbn. apply IH.
  - apply deliver_inv; [done|]. by destruct e.
  - by apply deliver_keeps.
Qed.

End Frame.

(** X10.  Until a size-limited run shows the success or the cancellation
    dialog it does not touch the final path: while the search is under way,
    and after any failure, the file that was there before the run (or no
    file) is still there. *)
Theorem final_path_untouched (existing : option File) (target_mb quality : Z)
    (c : CropSpec) (side rate : Z) (evs : list Event) :
  let w := exec evs (start_limited existing target_mb quality c side rate) in
  reports w = [] \/ (exists m, reports w = [mkReport Failed m]) ->
  disk w !! OutPath = existing.
Proof.
  intros w Hun.
  apply (exec_keeps existing (target_of target_mb) (ceiling_of quality)).
  - destruct (start_alive any_size existing target_mb quality c side rate)
      as (st & Ha & _).
    left. eauto.
  - intros _. unfold start_limited, make_badge. rewrite andb_false_r. cbn.
    apply (idle_out existing).
  - exact Hun.
Qed.

(** X11.  Against any encoder that always succeeds and whose size is some
    function of the quality, monotone or not, the run ends with the
    success dialog within [log2_up (quality_max - 1) + 2] encodes, and the
    committed quality is [quality_max] with a fitting file, or 1 with a
    file above the target, or a quality whose file fits while that of the
    next quality does not. *)
Theorem any_encoder_boundary (existing : option File) (target_mb quality : Z)
    (c : CropSpec) (side rate : Z) (size : Z -> Z) :
  let T := target_of target_mb in
  let QM := ceiling_of quality in
  Z.log2_up (QM - 1) <= 12 ->
  let w := run size (Z.to_nat (Z.log2_up (QM - 1) + 2))
             (start_limited existing target_mb quality c side rate) in
  exists q note,
    reports w = [mkReport Done (msg_output OutPath (Some q) (Some (size q)) note)] /\
    disk w !! OutPath = Some (mkFile (size q) (Some q)) /\
    1 <= q <= QM /\
    (q = QM /\ size QM <= T \/
     q = 1 /\ T < size 1 \/
     size q <= T /\ T < size (q + 1)).
Proof.
  intros T QM Hcap w.
  destruct (start_alive (sized size) existing target_mb quality c side rate)
    as (st & Ha & _).
  fold T QM in Ha.
  pose proof (Z.log2_up_nonneg (QM - 1)) as Hnn.
  assert (Hhalv : halvings (QM - 2) = Z.log2_up (QM - 1)).
  { replace (QM - 2) with (QM - 1 - 1) by lia. apply halvings_log2_up. }
  destruct (run_result size T QM (Z.to_nat (Z.log2_up (QM - 1) + 2)) _ st 0 QM Ha)
    as [(st' & p' & q' & Ha' & Hlen)|(Hf & m & Hm)];
    fold w in Ha', Hlen || fold w in Hf, Hm.
  - exfalso. pose proof (al_count_log _ _ _ _ _ _ _ Ha') as Hc.
    rewrite Hlen, Hhalv, start_launches in Hc. cbn [length] in Hc. lia.
  - destruct (fi_reports _ _ _ _ Hf) as (r & Hr & Hok).
    rewrite Hm in Hr. injection Hr as <-.
    destruct (ro_done _ _ _ _ _ _ Hok eq_refl)
      as (b & s & n & Hmsg & Hb & Hobs & Hn & _ & Hd).
    cbn in Hmsg. unfold sized in Hobs. subst s m.
    exists b, n. do 3 (split; [done|]).
    destruct n as [|q'' s''| | |]; cbn in Hn.
    + left. by destruct Hn as [-> Hfit].
    + right. left. destruct Hn as (-> & Hbig & _). done.
    + right. right. destruct Hn as (-> & Hfit & HQM & (s' & Hs' & Hbig)).
      unfold sized in Hs'. subst s'. split; [done|].
      assert (QM = 2) as HQ2; [|by replace (1 + 1) with QM by lia].
      destruct (decide (QM = 1)) as [H1|?]; [|lia]. rewrite H1 in Hbig. lia.
    + right. right. destruct Hn as (Hfit & (s' & Hs' & Hbig)).
      unfold sized in Hs'. by subst s'.
    + destruct Hn as (_ & Hcut). lia.
Qed.

(** ** The job without a size limit *)

Lemma plain_start (existing : option File) (quality : Z)
    (c : CropSpec) (side rate : Z) :
  plain_job quality (start_plain existing quality c side rate).
Proof.
  unfold start_plain, make_badge. rewrite andb_false_r. cbn.
  split; cbn; try done.
  - intros k. apply (idle_no_temp existing k).
  - left. by repeat split.
Qed.

Lemma plain_deliver (quality : Z) (w : MainWindow) (e : Event) :
  plain_job quality w -> plain_job quality (deliver w e).
Proof.
  intros [Hs Hl Hu Hd Hc [(Hp & Hf & Hcan & Hpend & Hfin & Hq & Hr)|(Hp & r & Hr)]].
  2:{ assert (deliver w e = w) as ->.
      { destruct e; cbn;
          unfold ffmpeg_writes, on_ffmpeg_finished, on_ffmpeg_error,
            cancel_make_badge; by rewrite Hp. }
      split; try done. right. eauto. }
  destruct e as [size|exit_ok details os_ok|details|]; cbn.
  - unfold ffmpeg_writes. rewrite Hp, Hpend.
    split; cbn; try done.
    + intros k. by rewrite lookup_insert_ne.
    + left. by repeat split.
  - unfold on_ffmpeg_finished. rewrite Hp, Hf. cbn. rewrite Hs.
    destruct exit_ok.
    + unfold finish_success_single. cbn. rewrite Hfin.
      split; cbn; try done. right. split; [done|]. rewrite Hr. eauto.
    + unfold abort_job, cleanup_size_search_temp_files. cbn. rewrite Hs.
      split; cbn; try done. right. split; [done|]. rewrite Hr. eauto.
  - unfold on_ffmpeg_error. rewrite Hp, Hf. cbn.
    unfold abort_job, cleanup_size_search_temp_files. cbn. rewrite Hs.
    split; cbn; try done. right. split; [done|]. rewrite Hr. eauto.
  - unfold cancel_make_badge. rewrite Hp. cbn.
    unfold cleanup_size_search_temp_files. cbn. rewrite Hs. cbn.
    rewrite Hfin, Hpend. cbn.
    split; cbn; try done.
    + intros k. unfold unlink. by rewrite !lookup_delete_ne.
    + right. split; [done|]. rewrite Hr. eauto.
Qed.

Lemma plain_exec (quality : Z) (evs : list Event) (w : MainWindow) :
  plain_job quality w -> plain_job quality (exec evs w).
Proof.
  revert w. induction evs as [|e evs IH]; intros w Hw; [done|].
  cbn. apply IH. by apply plain_deliver.
Qed.

Section Plain.

Variables (existing : option File) (quality : Z).
Variables (c : CropSpec) (side rate : Z).


(** X13.  When the process of such a job ends, the dialog is the success
    dialog exactly when it exited normally with code 0, otherwise the
    failure dialog with ffmpeg's output or the default text; in both cases
    the handler leaves the disk as it is, so after a failure whatever
    ffmpeg wrote to the final path stays there. *)
Theorem plain_outcome (evs : list Event) (exit_ok : bool) (details : string)
    (os_ok : bool) :
  let w := exec evs (start_plain existing quality c side rate) in
  let w' := deliver w (ev_finished exit_ok details os_ok) in
  ffmpeg_process w = true ->
  reports w' = [if exit_ok then mkReport Done msg_single_output
                else mkReport Failed (details_or details msg_ffmpeg_failed)] /\
  disk w' = disk w /\ ffmpeg_process w' = false.
Proof.
  intros w w' Hrun.
  destruct (plain_exec quality evs _ (plain_start existing quality c side rate))
    as [Hs Hl Hu Hd Hc Hst].
  fold w in Hs, Hst.
  destruct Hst as [(Hp & Hf & Hcan & Hpend & Hfin & Hq & Hr)|(Hp & _)];
    [|by rewrite Hp in Hrun].
  unfold w'. cbn. unfold on_ffmpeg_finished. rewrite Hp, Hf. cbn. rewrite Hs.
  destruct exit_ok.
  - unfold finish_success_single. cbn. rewrite Hfin. cbn. by rewrite Hr.
  - unfold abort_job, cleanup_size_search_temp_files. cbn. rewrite Hs. cbn.
    by rewrite Hcan, Hr.
Qed.


End Plain.

(** ** The crop rectangle *)

(** X15.  For a video of at least one pixel each way and a crop item of
    side at least 1, the crop handed to ffmpeg lies inside the frame. *)
Theorem crop_within_frame (width height side x y : Z) :
  1 <= width -> 1 <= height -> 1 <= side ->
  exists cs,
    current_crop (Some (side, x, y)) (Some (width, height)) = Some cs /\
    0 <= crop_x cs /\ 0 <= crop_y cs /\ 1 <= crop_side cs /\
    crop_x cs + crop_side cs <= width /\
    crop_y cs + crop_side cs <= height.
Proof. intros Hw Hh Hs. eexists. split; [reflexivity|]. cbn. lia. Qed.

(** X16.  A crop that already lies inside the frame is handed on
    unchanged. *)
Theorem crop_inside_unchanged (width height side x y : Z) :
  0 <= x -> 0 <= y -> 1 <= side ->
  x + side <= width -> y + side <= height ->
  current_crop (Some (side, x, y)) (Some (width, height))
  = Some (mkCrop x y side).
Proof.
  intros Hx Hy Hs Hw Hh. cbn. f_equal.
  f_equal; lia.
Qed.

(** ** Looking for ffmpeg and ffprobe *)

Section FindToolFacts.

Variable win : bool.
Variables script_dir exe_dir : FsPath.
Variable meipass : option FsPath.
Variable is_file : FsPath -> bool.
Variable which : string -> option string.

Lemma usable_Some (found : option string) (s : string) :
  usable found = Some s -> found = Some s /\ s <> "".
Proof.
  destruct found as [t|]; cbn; [|done].
  destruct (String.eqb_spec t ""); [done|]. by intros [= ->].
Qed.

(** X17.  What [find_ffmpeg_tool] returns is a place it has checked: a
    path from its candidate or well known lists that is a file, or the
    non-empty answer of [shutil.which] for the tool name with or without
    [.exe]. *)
Theorem find_sound (tool_name : string) (r : Found) :
  find_ffmpeg_tool win script_dir exe_dir meipass is_file which tool_name
    = Some r ->
  match r with
  | found_file p =>
      is_file p = true /\
      (In p (candidates win script_dir exe_dir meipass tool_name) \/
       In p (well_known win tool_name))
  | found_on_path s =>
      s <> "" /\
      (which tool_name = Some s \/ which (tool_name +:+ ".exe") = Some s)
  end.
Proof.
  unfold find_ffmpeg_tool.
  destruct (find is_file (candidates _ _ _ _ _)) as [p|] eqn:Ec.
  { intros [= <-]. apply find_some in Ec as [Hin Hf]. auto. }
  destruct (on_search_path which tool_name) as [s|] eqn:Ep.
  { intros [= <-]. unfold on_search_path in Ep.
    destruct (usable (which tool_name)) as [s'|] eqn:E1.
    - injection Ep as ->. apply usable_Some in E1 as [-> ?]. auto.
    - apply usable_Some in Ep as [-> ?]. auto. }
  destruct (find is_file (well_known _ _)) as [p|] eqn:Ew; [|done].
  intros [= <-]. apply find_some in Ew as [Hin Hf]. auto.
Qed.

(** X18.  [find_ffmpeg_tool] gives up exactly when none of the candidate
    and well known paths is a file and [shutil.which] has no non-empty
    answer for either name. *)
Theorem find_none_iff (tool_name : string) :
  find_ffmpeg_tool win script_dir exe_dir meipass is_file which tool_name
    = None <->
  (forall p, In p (candidates win script_dir exe_dir meipass tool_name ++
                   well_known win tool_name) -> is_file p = false) /\
  usable (which tool_name) = None /\
  usable (which (tool_name +:+ ".exe")) = None.
Proof.
  unfold find_ffmpeg_tool, on_search_path. split.
  - destruct (find is_file (candidates _ _ _ _ _)) as [p|] eqn:Ec; [done|].
    destruct (usable (which tool_name)) as [s|] eqn:E1; [done|].
    destruct (usable (which (tool_name +:+ ".exe"))) as [s|] eqn:E2; [done|].
    destruct (find is_file (well_known _ _)) as [p|] eqn:Ew; [done|].
    intros _. split; [|done]. intros p Hin.
    apply in_app_or in Hin as [Hin|Hin].
    + by apply (find_none _ _ Ec).
    + by apply (find_none _ _ Ew).
  - intros (Hall & -> & ->).
    destruct (find is_file (candidates _ _ _ _ _)) as [p|] eqn:Ec.
    { apply find_some in Ec as [Hin Hf].
      rewrite Hall in Hf; [done|]. apply in_or_app. by left. }
    destruct (find is_file (well_known _ _)) as [p|] eqn:Ew; [|done].
    apply find_some in Ew as [Hin Hf].
    rewrite Hall in Hf; [done|]. apply in_or_app. by right.
Qed.

(** X19.  A binary in the [ffmpeg_bin] folder next to the script, under
    the name the platform prefers ([.exe] on Windows, bare elsewhere), is
    chosen before anything else, whatever is on the search path. *)
Theorem bundled_first (tool_name : string) :
  let bundled :=
    script_dir ++ ["ffmpeg_bin"; tool_name +:+ (if win then ".exe" else "")] in
  is_file bundled = true ->
  find_ffmpeg_tool win script_dir exe_dir meipass is_file which tool_name
    = Some (found_file bundled).
Proof.
  intros bundled Hf. unfold find_ffmpeg_tool, candidates, suffixes.
  destruct win; cbn; fold bundled; by rewrite Hf.
Qed.

(** X20.  The search path is asked only when no candidate path is a
    file: an answer that comes from [shutil.which] means that the
    folders of the script, of the interpreter and of the bundle hold no
    such file. *)
Theorem search_path_last (tool_name s : string) :
  find_ffmpeg_tool win script_dir exe_dir meipass is_file which tool_name
    = Some (found_on_path s) ->
  forall p, In p (candidates win script_dir exe_dir meipass tool_name) ->
            is_file p = false.
Proof.
  unfold find_ffmpeg_tool.
  destruct (find is_file (candidates _ _ _ _ _)) as [p|] eqn:Ec; [done|].
  intros _ p Hin. by apply (find_none _ _ Ec).
Qed.

End FindToolFacts.

(** ** The further properties on concrete runs *)

(** The events of a run whose first attempt fits, and of one in which
    even the lowest quality is too big. *)
Definition first_fits : list Event :=
  [ev_write 3000000; ev_finished true "" true].
Definition never_fits : list Event :=
  [ev_write 8000000; ev_finished true "" true;
   ev_write 7000000; ev_finished true "" true].

(** An encoder whose size goes up and down with the quality. *)
Definition zigzag_size (q : Z) : Z :=
  if Z.even q then 9000000 else q * 1000.

Lemma max_attempts_note_unreachable_witness :
  let w := exec first_fits (start_limited None 5 100 crop0 100 30) in
  let r := mkReport Done
             (msg_output OutPath (Some 100) (Some 3000000) note_met_at_max) in
  100 <= 4097 /\ r ∈ reports w /\ outcome r = Done /\
  message r <> msg_output OutPath (Some 100) (Some 3000000) note_max_attempts.
Proof.
  intros w r.
  assert (Hr : r ∈ reports w) by (vm_compute; constructor).
  split; [lia|]. split; [done|]. split; [done|].
  apply (max_attempts_note_unreachable None 5 100 crop0 100 30 first_fits r
           OutPath (Some 100) (Some 3000000)); [lia|exact Hr|reflexivity].
Defined.

Lemma met_at_max_note_truthful_witness :
  let w := exec first_fits (start_limited None 5 100 crop0 100 30) in
  let r := mkReport Done
             (msg_output OutPath (Some 100) (Some 3000000) note_met_at_max) in
  r ∈ reports w /\ outcome r = Done /\
  100 = ceiling_of 100 /\ 3000000 <= target_of 5 /\
  length (launches w) = 1%nat.
Proof.
  intros w r.
  assert (Hr : r ∈ reports w) by (vm_compute; constructor).
  split; [done|]. split; [done|].
  destruct (met_at_max_note_truthful None 5 100 crop0 100 30 first_fits r
              OutPath 100 3000000 Hr eq_refl eq_refl) as (Hq & Hs & _ & Hl).
  by repeat split.
Defined.

Lemma unattainable_note_truthful_witness :
  let w := exec never_fits (start_limited None 5 100 crop0 100 30) in
  let r := mkReport Done
             (msg_output OutPath (Some 1) (Some 7000000)
                (note_unattainable 1 7000000)) in
  r ∈ reports w /\ outcome r = Done /\
  target_of 5 < 7000000 /\ length (launches w) = 2%nat.
Proof.
  intros w r.
  assert (Hr : r ∈ reports w) by (vm_compute; constructor).
  split; [done|]. split; [done|].
  destruct (unattainable_note_truthful None 5 100 crop0 100 30 never_fits r
              OutPath 1 7000000 1 7000000 Hr eq_refl eq_refl)
    as (_ & _ & _ & Hbig & _ & Hl).
  by split.
Defined.




Lemma final_path_untouched_witness :
  let orig := mkFile 100 None in
  let w := exec two_probes (start_limited (Some orig) 5 100 crop0 100 30) in
  (reports w = [] \/ exists m, reports w = [mkReport Failed m]) /\
  disk w !! OutPath = Some orig.
Proof.
  intros orig w.
  assert (Hr : reports w = [] \/ exists m, reports w = [mkReport Failed m])
    by (left; reflexivity).
  split; [done|].
  exact (final_path_untouched (Some orig) 5 100 crop0 100 30 two_probes Hr).
Defined.

Lemma any_encoder_boundary_witness :
  let w := run zigzag_size 9 (start_limited None 5 100 crop0 100 30) in
  Z.log2_up (ceiling_of 100 - 1) <= 12 /\
  exists q note,
    reports w = [mkReport Done
                   (msg_output OutPath (Some q) (Some (zigzag_size q)) note)] /\
    1 <= q <= 100.
Proof.
  intros w.
  assert (Hcap : Z.log2_up (ceiling_of 100 - 1) <= 12) by (by vm_compute).
  split; [done|].
  destruct (any_encoder_boundary None 5 100 crop0 100 30 zigzag_size Hcap)
    as (q & note & Hr & _ & Hq & _).
  exists q, note. by split.
Defined.

Lemma plain_outcome_witness :
  let w := start_plain None 80 crop0 100 30 in
  let w' := deliver w (ev_finished false "" true) in
  ffmpeg_process w = true /\
  reports w' = [mkReport Failed msg_ffmpeg_failed] /\ disk w' = disk w.
Proof.
  intros w w'.
  assert (Hrun : ffmpeg_process w = true) by reflexivity.
  split; [done|].
  destruct (plain_outcome None 80 crop0 100 30 [] false "" true Hrun)
    as (Hr & Hd & _).
  by split.
Defined.


Lemma crop_within_frame_witness :
  1 <= 1920 /\ 1 <= 1080 /\ 1 <= 1080 /\
  exists cs,
    current_crop (Some (1080, 2000, -5)) (Some (1920, 1080)) = Some cs /\
    crop_x cs + crop_side cs <= 1920 /\ crop_y cs + crop_side cs <= 1080.
Proof.
  do 3 (split; [lia|]).
  destruct (crop_within_frame 1920 1080 1080 2000 (-5))
    as (cs & Hcs & _ & _ & _ & Hx & Hy); [lia..|].
  exists cs. by repeat split.
Defined.

Lemma crop_inside_unchanged_witness :
  0 <= 420 /\ 0 <= 0 /\ 1 <= 1080 /\ 420 + 1080 <= 1920 /\ 0 + 1080 <= 1080 /\
  current_crop (Some (1080, 420, 0)) (Some (1920, 1080))
  = Some (mkCrop 420 0 1080).
Proof.
  do 5 (split; [lia|]).
  apply (crop_inside_unchanged 1920 1080 1080 420 0); lia.
Defined.

(** A machine on which only [/usr/local/bin/ffmpeg] exists, and one on
    which [ffmpeg] is found on the search path only. *)
Definition only_usr_local (p : FsPath) : bool :=
  bool_decide (p = ["usr"; "local"; "bin"; "ffmpeg"]).
Definition no_file (p : FsPath) : bool := false.
Definition every_file (p : FsPath) : bool := true.
Definition which_nothing (name : string) : option string := None.
Definition which_usr_bin (name : string) : option string :=
  if String.eqb name "ffmpeg" then Some "/usr/bin/ffmpeg" else None.

Lemma find_sound_witness :
  let r := found_file ["usr"; "local"; "bin"; "ffmpeg"] in
  find_ffmpeg_tool false ["app"] ["usr"; "bin"] None only_usr_local
    which_nothing "ffmpeg" = Some r /\
  only_usr_local ["usr"; "local"; "bin"; "ffmpeg"] = true.
Proof.
  intros r.
  assert (Hf : find_ffmpeg_tool false ["app"] ["usr"; "bin"] None
                 only_usr_local which_nothing "ffmpeg" = Some r)
    by (by vm_compute).
  split; [done|].
  by destruct (find_sound false ["app"] ["usr"; "bin"] None only_usr_local
                 which_nothing "ffmpeg" r Hf) as [Hfile _].
Defined.

Lemma bundled_first_witness :
  every_file (["app"] ++ ["ffmpeg_bin"; "ffmpeg" +:+ ".exe"]) = true /\
  find_ffmpeg_tool true ["app"] ["python"] None every_file which_usr_bin
    "ffmpeg" = Some (found_file ["app"; "ffmpeg_bin"; "ffmpeg.exe"]).
Proof.
  split; [reflexivity|].
  apply (bundled_first true ["app"] ["python"] None every_file which_usr_bin
           "ffmpeg"). reflexivity.
Defined.

Lemma search_path_last_witness :
  find_ffmpeg_tool false ["app"] ["usr"; "bin"] None no_file which_usr_bin
    "ffmpeg" = Some (found_on_path "/usr/bin/ffmpeg") /\
  no_file ["app"; "ffmpeg_bin"; "ffmpeg"] = false.
Proof.
  assert (Hf : find_ffmpeg_tool false ["app"] ["usr"; "bin"] None no_file
                 which_usr_bin "ffmpeg" = Some (found_on_path "/usr/bin/ffmpeg"))
    by (by vm_compute).
  split; [done|].
  apply (search_path_last false ["app"] ["usr"; "bin"] None no_file
           which_usr_bin "ffmpeg" "/usr/bin/ffmpeg" Hf).
  cbn. by left.
Defined.
